(** * Smart-factory sensor analyser: a shallow embedding of [app.py]

    The script loads a CSV sensor log through pandas, optionally normalises
    and date-filters it on its [timestamp] column, and derives descriptive
    statistics, a z-score outlier mask, a per-column outlier ratio and a
    correlation matrix.

    Numbers.  pandas holds a numeric column as float64 and computes every
    statistic in float64; so does the embedding.  A numeric cell is one of
    Rocq's primitive binary64 floats, and sums, means, deviations, z-scores,
    ratios and correlations are the IEEE 754 operations (round to nearest,
    ties to even) applied in the order in which pandas applies them: the
    two-pass variance of [nanops.nanvar] and the one-pass recurrence of
    [algos.nancorr].  Sums are accumulated in row order. *)

From Stdlib Require Import Strings.String Strings.Ascii Strings.Byte List Bool Arith ZArith.
From Stdlib Require Import Floats DecimalString Lia Permutation Sorted.
Import ListNotations.
Set Warnings "-inexact-float".

(* ================================================================= *)
(** ** float64 *)

Module Float64.
Local Open Scope float_scope.

(** [a > b]; every comparison with [NaN] is [False]. *)
Definition gt (a b : float) : bool := b <? a.

(** [a != b]; [True] when either side is [NaN]. *)
Definition ne (a b : float) : bool := negb (a =? b).

(** The float64 nearest to an int64. *)
Definition of_Z (z : Z) : float :=
  match z with
  | Z0 => 0
  | Zpos _ => of_uint63 (Uint63.of_Z z)
  | Zneg p => - of_uint63 (Uint63.of_Z (Zpos p))
  end.

Definition of_nat (n : nat) : float := of_Z (Z.of_nat n).

(** [numpy.sum] of a float64 array, from [0.0]. *)
Definition fsum (l : list float) : float := fold_left add l 0.

(** A zero of either sign, or [NaN]: the values that compare above no
    positive threshold. *)
Definition zero_or_nan (x : float) : Prop :=
  match Prim2SF x with
  | S754_zero _ | S754_nan => True
  | _ => False
  end.

End Float64.
Import Float64.

(* ================================================================= *)
(** ** Tables *)

(** A cell of a [DataFrame]: a float64 (numeric column), a string (object
    column), an instant in nanoseconds since the epoch (datetime64[ns]
    column), or a missing value ([NaN], [None], [NaT]).  An int64 column
    is held by the float64 values of its integers. *)
Inductive cell : Type :=
| Num (x : float)
| Str (s : string)
| Time (t : Z)
| NA.

Inductive dtype : Type := Number | Object | Datetime.

Definition dtype_eqb (a b : dtype) : bool :=
  match a, b with
  | Number, Number | Object, Object | Datetime, Datetime => true
  | _, _ => false
  end.

(** Rows in order; every column has a name and one dtype. *)
Record DataFrame : Type := mkDF {
  columns : list (string * dtype);
  rows : list (list cell)
}.

Definition names (df : DataFrame) : list string := map fst (columns df).

(** [len(df)] *)
Definition len (df : DataFrame) : nat := length (rows df).

(** [df.empty]: true when either axis has length zero. *)
Definition empty (df : DataFrame) : bool :=
  (length (columns df) =? 0)%nat || (len df =? 0)%nat.

(** [df.head()] *)
Definition head (df : DataFrame) : DataFrame :=
  mkDF (columns df) (firstn 5 (rows df)).

Fixpoint index_of (c : string) (l : list string) : option nat :=
  match l with
  | [] => None
  | x :: l' => if String.eqb c x then Some 0%nat
               else option_map S (index_of c l')
  end.

(** ["c" in df.columns] *)
Definition has_column (c : string) (df : DataFrame) : bool :=
  existsb (String.eqb c) (names df).

(** The cell of [row] under column [c]. *)
Definition get (df : DataFrame) (row : list cell) (c : string) : cell :=
  match index_of c (names df) with
  | Some j => nth j row NA
  | None => NA
  end.

(** [df.select_dtypes(include=np.number).columns] *)
Definition select_dtypes_number (df : DataFrame) : list string :=
  map fst (filter (fun cd => dtype_eqb (snd cd) Number) (columns df)).

(** [df.loc[mask]], [df[mask]]: the rows whose mask entry is [True]. *)
Definition loc (df : DataFrame) (mask : list bool) : DataFrame :=
  mkDF (columns df)
       (map fst (filter (fun rm => snd rm) (combine (rows df) mask))).

(** The float64 view of a cell, [NaN] for a missing value.  Arithmetic on
    a datetime64 column works on its nanosecond count. *)
Definition as_float (v : cell) : float :=
  match v with
  | Num x => x
  | Time t => of_Z t
  | Str _ | NA => nan
  end.

(** [df[c]] as a float64 series. *)
Definition series (df : DataFrame) (c : string) : list float :=
  map (fun row => as_float (get df row c)) (rows df).

(* ================================================================= *)
(** ** Reductions ([skipna=True]) *)

Section Reductions.
Local Open Scope float_scope.

(** The values that are not [NaN]. *)
Definition present (l : list float) : list float :=
  filter (fun x => negb (is_nan x)) l.

(** [Series.count()] *)
Definition count (l : list float) : nat := length (present l).

(** [Series.mean()], as [nanops.nanmean]: the missing values are filled
    with [0.0], the column is summed and the sum divided by the count of
    values present ([0.0 / 0.0] is [NaN]). *)
Definition mean (l : list float) : float :=
  fsum (map (fun x => if is_nan x then 0 else x) l) / of_nat (count l).

(** [Series.var()], [ddof=1], as [nanops.nanvar]: [NaN] unless at least
    two values are present; otherwise the squared differences from the
    mean, [0.0] at the missing values, summed and divided by the count
    less one. *)
Definition var (l : list float) : float :=
  if (count l <=? 1)%nat then nan
  else
    let avg := mean l in
    fsum (map (fun x => if is_nan x then 0 else (avg - x) * (avg - x)) l)
    / of_nat (count l - 1).

(** [Series.std()], [ddof=1] *)
Definition std (l : list float) : float := sqrt (var l).

(** [Series.min()] and [Series.max()]; [NaN] without a value. *)
Definition fmin (l : list float) : float :=
  match present l with
  | [] => nan
  | x :: l' => fold_left (fun m y => if y <? m then y else m) l' x
  end.

Definition fmax (l : list float) : float :=
  match present l with
  | [] => nan
  | x :: l' => fold_left (fun m y => if m <? y then y else m) l' x
  end.

Fixpoint insert_float (x : float) (l : list float) : list float :=
  match l with
  | [] => [x]
  | y :: l' => if x <=? y then x :: y :: l' else y :: insert_float x l'
  end.

Definition sort_floats (l : list float) : list float :=
  fold_right insert_float [] l.

(** numpy's linear interpolation between neighbours [a] and [b]. *)
Definition lerp (a b t : float) : float :=
  if 0.5 <=? t then b - (b - a) * (1 - t) else a + (b - a) * t.

(** [Series.quantile(k / 4)], linear interpolation: the sorted values
    present are indexed at [(n - 1) * k / 4]. *)
Definition quartile (k : nat) (l : list float) : float :=
  let s := sort_floats (present l) in
  match length s with
  | O => nan
  | S n1 =>
      let lo := (k * n1 / 4)%nat in
      lerp (nth lo s nan) (nth (Nat.min (S lo) n1) s nan)
           (of_nat ((k * n1) mod 4) / 4)
  end.

End Reductions.

(** One column of [DataFrame.describe()]. *)
Record stats : Type := mkStats {
  stat_count : float;
  stat_mean : float;
  stat_std : float;
  stat_min : float;
  stat_25 : float;
  stat_50 : float;
  stat_75 : float;
  stat_max : float
}.

(** The row labels of [describe()]. *)
Definition describe_index : list string :=
  ["count"; "mean"; "std"; "min"; "25%"; "50%"; "75%"; "max"]%string.

(** [desc_df = df[numeric_cols].describe()], column by column. *)
Definition describe (df : DataFrame) (numeric_cols : list string)
  : list (string * stats) :=
  map (fun c =>
         let l := series df c in
         (c, mkStats (of_nat (count l)) (mean l) (std l) (fmin l)
                     (quartile 1 l) (quartile 2 l) (quartile 3 l) (fmax l)))
      numeric_cols.

(** Lines 69-78. *)
Definition stats_kor : list (string * string) :=
  [("count", "count (개수)"); ("mean", "mean (평균)");
   ("std", "std (표준편차)"); ("min", "min (최솟값)");
   ("25%", "25% (1사분위)"); ("50%", "50% (중앙값)");
   ("75%", "75% (3사분위)"); ("max", "max (최댓값)")]%string.

Fixpoint lookup (k : string) (d : list (string * string)) : option string :=
  match d with
  | [] => None
  | (k', v) :: d' => if String.eqb k k' then Some v else lookup k d'
  end.

(** [rename(index=d)]: a label the dictionary lacks is kept. *)
Definition rename (d : list (string * string)) (index : list string)
  : list string :=
  map (fun k => match lookup k d with Some v => v | None => k end) index.

(* ================================================================= *)
(** ** Outlier detection (lines 82-84, 103) *)

Section Detector.
Local Open Scope float_scope.

(** One entry of
    [np.abs((df[numeric_cols] - df[numeric_cols].mean()) / df[numeric_cols].std())]. *)
Definition z_score (df : DataFrame) (c : string) (row : list cell) : float :=
  abs ((as_float (get df row c) - mean (series df c)) / std (series df c)).

(** The z-score frame, one list per row, one entry per numeric column. *)
Definition z_scores (df : DataFrame) (numeric_cols : list string)
  : list (list float) :=
  map (fun row => map (fun c => z_score df c row) numeric_cols) (rows df).

Definition threshold : float := 3.

(** [z_scores > 3] *)
Definition exceeds (z : list (list float)) : list (list bool) :=
  map (map (fun v => gt v threshold)) z.

(** [.any(axis=1)] *)
Definition any_axis1 (m : list (list bool)) : list bool :=
  map (existsb (fun b => b)) m.

(** [.sum()] of a boolean frame: the number of [True] per column. *)
Definition sum_axis0 (width : nat) (m : list (list bool)) : list nat :=
  map (fun j => length (filter (fun r => nth j r false) m)) (seq 0 width).

(** [outliers = (z_scores > 3).any(axis=1)] *)
Definition outliers (z : list (list float)) : list bool :=
  any_axis1 (exceeds z).

(** [outlier_ratio = ((z_scores > 3).sum() / len(df)) * 100], keyed by
    column name. *)
Definition outlier_ratio (df : DataFrame) (numeric_cols : list string)
  (z : list (list float)) : list (string * float) :=
  combine numeric_cols
    (map (fun k => of_nat k / of_nat (len df) * 100)
         (sum_axis0 (length numeric_cols) (exceeds z))).

End Detector.

(* ================================================================= *)
(** ** Correlation (line 113) *)

Section Correlation.
Local Open Scope float_scope.

(** The running state of [algos.nancorr] for one pair of columns. *)
Record welford : Type := mkWelford {
  nobs : nat;
  meanx : float;
  meany : float;
  ssqdm_x : float;
  ssqdm_y : float;
  covxy : float
}.

Definition welford0 : welford := mkWelford 0 0 0 0 0 0.

(** One row on which both columns are finite. *)
Definition welford_step (w : welford) (vx vy : float) : welford :=
  let n := S (nobs w) in
  let dx := vx - meanx w in
  let dy := vy - meany w in
  let mx := meanx w + 1 / of_nat n * dx in
  let my := meany w + 1 / of_nat n * dy in
  mkWelford n mx my
            (ssqdm_x w + (vx - mx) * dx)
            (ssqdm_y w + (vy - my) * dy)
            (covxy w + (vx - mx) * dy).

(** The rows of a pair, in order; a row counts when both values are
    finite ([mask = np.isfinite(mat)]). *)
Definition welford_row (w : welford) (p : float * float) : welford :=
  if is_finite (fst p) && is_finite (snd p)
  then welford_step w (fst p) (snd p) else w.

Definition welford_run (xs ys : list float) : welford :=
  fold_left welford_row (combine xs ys) welford0.

(** Pearson's coefficient as [algos.nancorr] computes it
    ([min_periods=1]): [NaN] without an observation or with a zero
    divisor. *)
Definition nancorr (xs ys : list float) : float :=
  let w := welford_run xs ys in
  if (nobs w <? 1)%nat then nan
  else
    let divisor := sqrt (ssqdm_x w * ssqdm_y w) in
    if ne divisor 0 then covxy w / divisor else nan.

(** [corr = df[numeric_cols].corr()]: [nancorr] fills the entries at and
    below the diagonal, column [xi] against column [yi <= xi], and mirrors
    each of them. *)
Definition corr (df : DataFrame) (numeric_cols : list string)
  : list (list float) :=
  map (fun ia =>
         map (fun jb =>
                if (fst jb <=? fst ia)%nat
                then nancorr (series df (snd ia)) (series df (snd jb))
                else nancorr (series df (snd jb)) (series df (snd ia)))
             (combine (seq 0 (length numeric_cols)) numeric_cols))
      (combine (seq 0 (length numeric_cols)) numeric_cols).





End Correlation.

(* ================================================================= *)
(** ** Timestamp handling (lines 53-65) *)

Definition timestamp : string := "timestamp".

Fixpoint set_nth {A : Type} (j : nat) (v : A) (l : list A) : list A :=
  match l, j with
  | [], _ => []
  | _ :: l', O => v :: l'
  | x :: l', S j' => x :: set_nth j' v l'
  end.

(** [df[c]] *)
Definition column (df : DataFrame) (c : string) : list cell :=
  map (fun row => get df row c) (rows df).

(** [df[c] = values] for an existing column [c] and one value per row,
    the column taking dtype [dt]. *)
Definition assign (df : DataFrame) (c : string) (dt : dtype)
  (values : list cell) : DataFrame :=
  match index_of c (names df) with
  | Some j =>
      mkDF (set_nth j (c, dt) (columns df))
           (map (fun rv => set_nth j (snd rv) (fst rv))
                (combine (rows df) values))
  | None => df
  end.

(** Every row has one cell per column. *)
Definition well_formed (df : DataFrame) : bool :=
  forallb (fun row => (length row =? length (columns df))%nat) (rows df).

(** [row] with its [timestamp] cell replaced by [v]. *)
Definition stamp (df : DataFrame) (row : list cell) (v : cell) : list cell :=
  match index_of timestamp (names df) with
  | Some j => set_nth j v row
  | None => row
  end.

(** The instant of a row, [None] for [NaT]. *)
Definition instant (df : DataFrame) (row : list cell) : option Z :=
  match get df row timestamp with
  | Time t => Some t
  | _ => None
  end.

(** [df.dropna(subset=['timestamp'])] *)
Definition dropna (df : DataFrame) : DataFrame :=
  mkDF (columns df)
       (filter (fun row => match get df row timestamp with
                           | NA => false
                           | _ => true
                           end) (rows df)).

(** Ascending order on instants, [NaT] last. *)
Definition instant_leb (a b : option Z) : bool :=
  match a, b with
  | Some x, Some y => (x <=? y)%Z
  | _, None => true
  | None, Some _ => false
  end.

Fixpoint insert_by {A : Type} (key : A -> option Z) (x : A) (l : list A)
  : list A :=
  match l with
  | [] => [x]
  | y :: l' => if instant_leb (key x) (key y) then x :: y :: l'
               else y :: insert_by key x l'
  end.

Fixpoint sort_by {A : Type} (key : A -> option Z) (l : list A) : list A :=
  match l with
  | [] => []
  | x :: l' => insert_by key x (sort_by key l')
  end.

(** [x] may precede [y] in ascending order of [key]. *)
Definition key_le {A : Type} (key : A -> option Z) (x y : A) : Prop :=
  instant_leb (key x) (key y) = true.

(** [df.sort_values("timestamp")].  pandas leaves the relative order of
    equal keys to numpy's sort; here equal keys keep their order. *)
Definition sort_values (df : DataFrame) : DataFrame :=
  mkDF (columns df) (sort_by (instant df) (rows df)).

Definition ns_per_day : Z := 86400000000000.

(** [Timestamp.date()] as a day number. *)
Definition date_of (t : Z) : Z := (t / ns_per_day)%Z.

Fixpoint opt_fold (f : Z -> Z -> Z) (l : list (option Z)) : option Z :=
  match l with
  | [] => None
  | None :: l' => opt_fold f l'
  | Some x :: l' => match opt_fold f l' with
                    | Some y => Some (f x y)
                    | None => Some x
                    end
  end.

(** [df["timestamp"].min()] and [.max()]; [NaT] on an empty series. *)
Definition ts_min (df : DataFrame) : option Z :=
  opt_fold Z.min (map (instant df) (rows df)).
Definition ts_max (df : DataFrame) : option Z :=
  opt_fold Z.max (map (instant df) (rows df)).

(** [st.date_input(label, value=v)]: the date the user picked, or the
    default [v] when the widget was left alone.  On a table without
    instants the default is [NaT], which the widget is taken to hand
    back. *)
Definition date_input (pick : option Z) (value : option Z) : option Z :=
  match pick with
  | Some d => Some d
  | None => value
  end.

(** One entry of
    [(df["timestamp"].dt.date >= start_date) & (df["timestamp"].dt.date <= end_date)];
    a comparison with [NaT] is [False]. *)
Definition in_range (df : DataFrame) (start_date end_date : option Z)
  (row : list cell) : bool :=
  match instant df row, start_date, end_date with
  | Some t, Some s, Some e => (s <=? date_of t)%Z && (date_of t <=? e)%Z
  | _, _, _ => false
  end.

Definition date_mask (df : DataFrame) (start_date end_date : option Z)
  : list bool :=
  map (in_range df start_date end_date) (rows df).

(** Lines 62-63: the two bounds, each defaulting to the date of the
    first, respectively the last, instant of the table. *)
Definition start_date (df : DataFrame) (start_pick : option Z) : option Z :=
  date_input start_pick (option_map date_of (ts_min df)).
Definition end_date (df : DataFrame) (end_pick : option Z) : option Z :=
  date_input end_pick (option_map date_of (ts_max df)).

(** Lines 62-65. *)
Definition filter_by_date (df : DataFrame) (start_pick end_pick : option Z)
  : DataFrame :=
  loc df (date_mask df (start_date df start_pick) (end_date df end_pick)).

(* ================================================================= *)
(** ** The uploaded file and the script's effects *)

Inductive encoding : Type := Utf8 | Cp949 | Latin1.

(** [encodings_to_try = ['utf-8', 'cp949', 'ISO-8859-1']] *)
Definition encodings_to_try : list encoding := [Utf8; Cp949; Latin1].

(** Streamlit's [UploadedFile] is an in-memory binary stream: its bytes
    and the read position, which every read advances. *)
Record UploadedFile : Type := mkFile {
  content : list byte;
  position : nat
}.

Definition upload (b : list byte) : UploadedFile := mkFile b 0.

(** The three conditions that end a run early. *)
Inductive terminal : Type :=
| DecodeError
| EmptyInputError
| NoAnalyzableDataError.

(** What the script hands to the page, in order. *)
Inductive event : Type :=
| AskUpload
| Halt (e : terminal)
| Preview (df : DataFrame)
| DatePickers (start_date end_date : option Z)
| Summary (index : list string) (desc : list (string * stats))
| OutlierCount (n : nat)
| OutlierRows (df : DataFrame)
| Alarm (raised : bool)
| Download (csv : list byte)
| RatioChart (ratio : list (string * float))
| Heatmap (m : list (list float))
| TimeSeries (selected_col : string) (df : DataFrame) (marked : DataFrame)
| NoTimeSeries.

(** A script run: the events emitted so far, and a value unless
    [st.stop()] ended the run. *)
Definition Script (A : Type) : Type := (list event * option A)%type.

Definition ret {A : Type} (a : A) : Script A := ([], Some a).

Definition bind {A B : Type} (m : Script A) (k : A -> Script B) : Script B :=
  match m with
  | (l, Some a) => let (l', r) := k a in (l ++ l', r)
  | (l, None) => (l, None)
  end.

Definition st (e : event) : Script unit := ([e], Some tt).

(** [st.stop()] *)
Definition st_stop {A : Type} : Script A := ([], None).

Declare Scope script_scope.
Delimit Scope script_scope with script.
Notation "x <- m ;; k" := (bind m (fun x => k))
  (at level 61, m at next level, right associativity) : script_scope.
Notation "m ;; k" := (bind m (fun _ => k))
  (at level 61, right associativity) : script_scope.



Definition trace {A : Type} (m : Script A) : list event := fst m.

(** The widget state of one run. *)
Record Widgets : Type := mkWidgets {
  uploaded_file : option UploadedFile;
  start_pick : option Z;
  end_pick : option Z;
  selected_pick : option string
}.

Section Script.

(** pandas, as the script sees it.  [parse_csv enc b] is the table
    [pd.read_csv] builds from the bytes [b] decoded as [enc], [None] when
    it raises; [read_ahead enc b] is the number of bytes a read that
    raises has taken from the stream by then (pandas reads through a
    buffer: all of [b] when it fits the buffer); [to_datetime l] is the
    series [pd.to_datetime] makes of the column [l], one entry per cell,
    [None] where a value does not parse ([errors='coerce']);
    [to_csv df] is [df.to_csv(index=False).encode('utf-8')]. *)
Variable parse_csv : encoding -> list byte -> option DataFrame.
Variable read_ahead : encoding -> list byte -> nat.
Variable to_datetime : list cell -> list (option Z).
Variable to_csv : DataFrame -> list byte.

(** [pd.read_csv(uploaded_file, encoding=enc)]: parses what lies between
    the read position and the end of the stream.  A read that succeeds
    has consumed the stream; one that raises leaves the position where
    the reader stopped.  The script never rewinds the stream. *)
Definition read_csv (f : UploadedFile) (enc : encoding)
  : option DataFrame * UploadedFile :=
  let rest := skipn (position f) (content f) in
  match parse_csv enc rest with
  | Some df => (Some df, mkFile (content f) (length (content f)))
  | None => (None, mkFile (content f) (position f + read_ahead enc rest))
  end.

(** Lines 28-34: the first encoding whose read does not raise. *)
Fixpoint try_encodings (encs : list encoding) (f : UploadedFile)
  : option DataFrame * UploadedFile :=
  match encs with
  | [] => (None, f)
  | enc :: encs' =>
      match read_csv f enc with
      | (Some df, f') => (Some df, f')
      | (None, f') => try_encodings encs' f'
      end
  end.

(** Lines 27-42: the loop and the two checks that follow it. *)
Definition load (f : UploadedFile) : terminal + DataFrame :=
  match fst (try_encodings encodings_to_try f) with
  | None => inl DecodeError
  | Some df => if empty df then inl EmptyInputError else inr df
  end.

Definition of_instant (o : option Z) : cell :=
  match o with
  | Some t => Time t
  | None => NA
  end.

(** Line 55: [pd.to_datetime(df['timestamp'], errors='coerce')] *)
Definition coerce (df : DataFrame) : list cell :=
  map of_instant (to_datetime (column df timestamp)).

(** The rows whose timestamp parses, each carrying its parsed instant. *)
Definition parsed_rows (df : DataFrame) : list (list cell) :=
  flat_map (fun ro =>
              match snd ro with
              | Some t => [stamp df (fst ro) (Time t)]
              | None => []
              end)
           (combine (rows df) (to_datetime (column df timestamp))).

(** Lines 55-57. *)
Definition normalize (df : DataFrame) : DataFrame :=
  sort_values (dropna (assign df timestamp Datetime (coerce df))).

(** Lines 67-136, on the working table. *)
Definition analyse (w : Widgets) (timestamp_available : bool)
  (df : DataFrame) (numeric_cols : list string) : Script unit :=
  (st (Summary (rename stats_kor describe_index)
               (describe df numeric_cols)) ;;
   let z := z_scores df numeric_cols in
   let mask := outliers z in
   st (OutlierCount (length (filter (fun b => b) mask))) ;;
   st (OutlierRows (loc df mask)) ;;
   st (Alarm (0 <? length (filter (fun b => b) mask))%nat) ;;
   let csv_outliers := to_csv (loc df mask) in
   st (Download csv_outliers) ;;
   st (RatioChart (outlier_ratio df numeric_cols z)) ;;
   st (Heatmap (corr df numeric_cols)) ;;
   if timestamp_available then
     let selected_col :=
       match selected_pick w with
       | Some c => c
       | None => hd EmptyString numeric_cols
       end in
     st (TimeSeries selected_col df (loc df mask))
   else st NoTimeSeries)%script.

(** Lines 53-65: the working table and the date pickers shown. *)
Definition prepare (w : Widgets) (df : DataFrame) : Script DataFrame :=
  (if has_column timestamp df then
     let df := normalize df in
     st (DatePickers (start_date df (start_pick w))
                     (end_date df (end_pick w))) ;;
     ret (filter_by_date df (start_pick w) (end_pick w))
   else ret df)%script.

(** The whole script. *)
Definition app (w : Widgets) : Script unit :=
  match uploaded_file w with
  | None => st AskUpload
  | Some f =>
      (df <- match fst (try_encodings encodings_to_try f) with
             | None => st (Halt DecodeError) ;; st_stop
             | Some df => ret df
             end ;;
       (if empty df then st (Halt EmptyInputError) ;; st_stop
        else ret tt) ;;
       st (Preview (head df)) ;;
       let numeric_cols := select_dtypes_number df in
       (if (length numeric_cols =? 0)%nat
        then st (Halt NoAnalyzableDataError) ;; st_stop
        else ret tt) ;;
       let timestamp_available := has_column timestamp df in
       df <- prepare w df ;;
       analyse w timestamp_available df numeric_cols)%script
  end.

End Script.

(* ================================================================= *)
(** ** A reference pandas for the worked examples

    The script is verified for every [parse_csv], [read_ahead],
    [to_datetime] and [to_csv]; the examples instantiate them with a
    reader and a writer of plain CSV (comma separated, newline terminated,
    no quoting) on inputs that fit the read buffer.  The reader takes a
    decimal literal to the nearest float64 and an ISO date to its instant;
    the writer gives a float64 the shortest digits that read back as it,
    as Python's [repr] does, and an instant its ISO date. *)

Module Reference.

Definition code (b : byte) : N := Byte.to_N b.

Definition between (lo hi n : N) : bool := ((lo <=? n) && (n <=? hi))%N.

(** UTF-8: [pending] continuation bytes are still due. *)
Fixpoint utf8_valid (pending : nat) (l : list byte) : bool :=
  match l with
  | [] => (pending =? 0)%nat
  | b :: l' =>
      match pending with
      | O => if (code b <? 128)%N then utf8_valid 0 l'
             else if between 194 223 (code b) then utf8_valid 1 l'
             else if between 224 239 (code b) then utf8_valid 2 l'
             else if between 240 244 (code b) then utf8_valid 3 l'
             else false
      | S p => if between 128 191 (code b) then utf8_valid p l' else false
      end
  end.

(** CP949: ASCII, or a lead byte followed by a trail byte. *)
Fixpoint cp949_valid (trail_due : bool) (l : list byte) : bool :=
  match l with
  | [] => negb trail_due
  | b :: l' =>
      if trail_due then
        if between 65 254 (code b) then cp949_valid false l' else false
      else if (code b <? 128)%N then cp949_valid false l'
      else if between 129 254 (code b) then cp949_valid true l'
      else false
  end.

Definition decodes (enc : encoding) (l : list byte) : bool :=
  match enc with
  | Utf8 => utf8_valid 0 l
  | Cp949 => cp949_valid false l
  | Latin1 => true
  end.

Fixpoint split_on (sep : byte) (l : list byte) : list (list byte) :=
  match l with
  | [] => [[]]
  | b :: l' =>
      if Byte.eqb b sep then [] :: split_on sep l'
      else match split_on sep l' with
           | f :: fs => (b :: f) :: fs
           | [] => [[b]]
           end
  end.

Definition is_nil {A : Type} (l : list A) : bool :=
  match l with [] => true | _ => false end.

Definition digit (b : byte) : option Z :=
  if between 48 57 (code b) then Some (Z.of_N (code b) - 48)%Z else None.

(** The digits of [l] appended to [acc]; [k] counts the scale. *)
Fixpoint read_digits (l : list byte) (acc : Z) (k : positive)
  : option (Z * positive) :=
  match l with
  | [] => Some (acc, k)
  | b :: l' => match digit b with
               | Some d => read_digits l' (10 * acc + d)%Z (10 * k)%positive
               | None => None
               end
  end.

(** Digits, with an optional fraction: the value is the first component
    over the second. *)
Definition read_mantissa (l : list byte) : option (Z * positive) :=
  match split_on "."%byte l with
  | [ip] => if is_nil ip then None
            else option_map (fun r => (fst r, 1%positive))
                            (read_digits ip 0%Z 1%positive)
  | [ip; fp] =>
      if is_nil ip || is_nil fp then None
      else match read_digits ip 0%Z 1%positive with
           | Some (i, _) => read_digits fp i 1%positive
           | None => None
           end
  | _ => None
  end.

(** A decimal exponent: digits after an optional sign. *)
Definition read_exponent (l : list byte) : option Z :=
  let unsigned l :=
    if is_nil l then None
    else option_map fst (read_digits l 0%Z 1%positive) in
  match l with
  | b :: l' => if Byte.eqb b "-"%byte then option_map Z.opp (unsigned l')
               else if Byte.eqb b "+"%byte then unsigned l'
               else unsigned l
  | [] => None
  end.

(** The float64 nearest to [n / scale * 10 ^ e], by one correctly rounded
    division of integers. *)
Definition of_decimal (neg : bool) (n : Z) (scale : positive) (e : Z)
  : float :=
  match n with
  | Zpos p =>
      let num := if (0 <=? e)%Z then (p * Z.to_pos (10 ^ e))%positive else p in
      let den := if (0 <=? e)%Z then scale
                 else (scale * Z.to_pos (10 ^ (- e)))%positive in
      SF2Prim (SFdiv prec emax (S754_finite neg num 0)
                                (S754_finite false den 0))
  | _ => if neg then (- 0)%float else 0%float
  end.

(** A decimal literal: sign, digits, fraction, exponent. *)
Definition read_number (l : list byte) : option float :=
  let signed :=
    match l with
    | b :: l' => if Byte.eqb b "-"%byte then (true, l') else (false, l)
    | [] => (false, l)
    end in
  let parts :=
    match split_on "e"%byte (snd signed) with
    | [m] => Some (m, Some 0%Z)
    | [m; x] => Some (m, read_exponent x)
    | _ => None
    end in
  match parts with
  | Some (m, Some e) =>
      option_map (fun r => of_decimal (fst signed) (fst r) (snd r) e)
                 (read_mantissa m)
  | _ => None
  end.

(** The strings pandas reads as a missing value. *)
Definition na_values : list string :=
  ["#N/A"; "#N/A N/A"; "#NA"; "-1.#IND"; "-1.#QNAN"; "-NaN"; "-nan";
   "1.#IND"; "1.#QNAN"; "<NA>"; "N/A"; "NA"; "NULL"; "NaN"; "None";
   "n/a"; "nan"; "null"]%string.

Definition missing (l : list byte) : bool :=
  is_nil l || existsb (String.eqb (string_of_list_byte l)) na_values.

Definition numeric_field (l : list byte) : bool :=
  missing l || match read_number l with Some _ => true | None => false end.

Definition read_cell (numeric : bool) (l : list byte) : cell :=
  if missing l then NA
  else if numeric then match read_number l with
                       | Some x => Num x
                       | None => NA
                       end
  else Str (string_of_list_byte l).

(** The table read from [l] decoded as [enc]; [None] where pandas
    raises: undecodable bytes, no header line, or a record longer than the
    header. *)
Definition parse_csv (enc : encoding) (l : list byte) : option DataFrame :=
  if negb (decodes enc l) then None
  else
    match filter (fun ln => negb (is_nil ln)) (split_on x0a l) with
    | [] => None
    | header :: records =>
        let heads := split_on ","%byte header in
        let width := length heads in
        let fields := map (split_on ","%byte) records in
        if forallb (fun r => (length r <=? width)%nat) fields then
          let numeric :=
            map (fun j => negb (is_nil fields)
                          && forallb (fun r => numeric_field (nth j r []))
                                     fields)
                (seq 0 width) in
          Some (mkDF
                  (combine (map string_of_list_byte heads)
                           (map (fun n : bool => if n then Number else Object)
                                numeric))
                  (map (fun r =>
                          map (fun j => read_cell (nth j numeric false)
                                                  (nth j r []))
                              (seq 0 width)) fields))
        else None
    end.

(** The whole input is in the buffer when a read raises. *)
Definition read_ahead (enc : encoding) (l : list byte) : nat := length l.

(** Days from 1970-01-01 to the civil date [y-m-d]. *)
Definition days_from_civil (y m d : Z) : Z :=
  let y' := (if m <=? 2 then y - 1 else y)%Z in
  let era := (y' / 400)%Z in
  let yoe := (y' - era * 400)%Z in
  let mp := ((m + 9) mod 12)%Z in
  let doy := ((153 * mp + 2) / 5 + d - 1)%Z in
  let doe := (yoe * 365 + yoe / 4 - yoe / 100 + doy)%Z in
  (era * 146097 + doe - 719468)%Z.

(** The civil date of a day number. *)
Definition civil_from_days (z : Z) : Z * Z * Z :=
  let z := (z + 719468)%Z in
  let era := (z / 146097)%Z in
  let doe := (z - era * 146097)%Z in
  let yoe := ((doe - doe / 1460 + doe / 36524 - doe / 146096) / 365)%Z in
  let doy := (doe - (365 * yoe + yoe / 4 - yoe / 100))%Z in
  let mp := ((5 * doy + 2) / 153)%Z in
  let d := (doy - (153 * mp + 2) / 5 + 1)%Z in
  let m := (if mp <? 10 then mp + 3 else mp - 9)%Z in
  ((if m <=? 2 then yoe + era * 400 + 1 else yoe + era * 400)%Z, m, d).

Definition read_nat (l : list byte) : option Z :=
  if is_nil l then None
  else option_map fst (read_digits l 0%Z 1%positive).

(** [YYYY-MM-DD] as nanoseconds since the epoch. *)
Definition read_day (l : list byte) : option Z :=
  match split_on "-"%byte l with
  | [ys; ms; ds] =>
      match read_nat ys, read_nat ms, read_nat ds with
      | Some y, Some m, Some d =>
          if ((1 <=? m) && (m <=? 12) && (1 <=? d) && (d <=? 31))%Z
          then Some (days_from_civil y m d * ns_per_day)%Z
          else None
      | _, _, _ => None
      end
  | _ => None
  end.

(** [HH:MM:SS] as nanoseconds since midnight. *)
Definition read_time (l : list byte) : option Z :=
  match split_on ":"%byte l with
  | [hs; ms; ss] =>
      match read_nat hs, read_nat ms, read_nat ss with
      | Some h, Some m, Some s =>
          if ((h <? 24) && (m <? 60) && (s <? 60))%Z
          then Some (((h * 60 + m) * 60 + s) * 1000000000)%Z
          else None
      | _, _, _ => None
      end
  | _ => None
  end.

(** An ISO date, with an optional time of day after a space. *)
Definition read_date (l : list byte) : option Z :=
  match split_on " "%byte l with
  | [d] => read_day d
  | [d; t] => match read_day d, read_time t with
              | Some day, Some ns => Some (day + ns)%Z
              | _, _ => None
              end
  | _ => None
  end.

(** The integer part of a float64; [None] for [NaN] and the infinities. *)
Definition truncate (x : float) : option Z :=
  match Prim2SF x with
  | S754_zero _ => Some 0%Z
  | S754_finite s m e =>
      let a := (if 0 <=? e then Zpos m * 2 ^ e
                else Zpos m / 2 ^ (- e))%Z in
      Some (if s then - a else a)%Z
  | _ => None
  end.

(** Numbers count nanoseconds, strings are ISO dates. *)
Definition to_instant (v : cell) : option Z :=
  match v with
  | Num x => truncate x
  | Str s => read_date (list_byte_of_string s)
  | Time t => Some t
  | NA => None
  end.

Definition to_datetime (l : list cell) : list (option Z) :=
  map to_instant l.

Definition write_Z (z : Z) : list byte :=
  list_byte_of_string (DecimalString.NilZero.string_of_int (Z.to_int z)).

(** [z] in at least two digits. *)
Definition pad2 (z : Z) : list byte :=
  if (z <? 10)%Z then "0"%byte :: write_Z z else write_Z z.

Definition pad4 (z : Z) : list byte :=
  repeat "0"%byte (4 - length (write_Z z)) ++ write_Z z.

(** [a / b] rounded to the nearest integer, ties to even. *)
Definition round_div (a b : Z) : Z :=
  let q := (a / b)%Z in
  let r2 := (2 * (a mod b))%Z in
  if (r2 <? b)%Z then q
  else if (b <? r2)%Z then (q + 1)%Z
  else if Z.even q then q else (q + 1)%Z.

(** [num / den] in units of [10 ^ E]. *)
Definition scaled (num den E : Z) : Z :=
  if (0 <=? E)%Z then round_div num (den * 10 ^ E)
  else round_div (num * 10 ^ (- E)) den.

(** [10 ^ g <= num / den] *)
Definition ge_pow10 (num den g : Z) : bool :=
  if (0 <=? g)%Z then (den * 10 ^ g <=? num)%Z
  else (den <=? num * 10 ^ (- g))%Z.

(** The decimal exponent of the leading digit of [num / den]. *)
Definition exponent10 (num den : Z) : Z :=
  let g := ((Z.log2 num - Z.log2 den) * 30103 / 100000)%Z in
  if ge_pow10 num den (g + 1) then (g + 1)%Z
  else if ge_pow10 num den g then g else (g - 1)%Z.

(** [num / den] to [p] significant digits: the digits and the exponent
    of the last one. *)
Definition digits_at (p num den : Z) : Z * Z :=
  let E := (exponent10 num den - (p - 1))%Z in
  (scaled num den E, E).

(** The fewest digits, from [p] on, that read back as [x]; seventeen
    always do. *)
Fixpoint shortest (fuel : nat) (p : Z) (x : float) (num den : Z) : Z * Z :=
  let de := digits_at p num den in
  match fuel with
  | O => de
  | S fuel' =>
      if Leibniz.eqb (of_decimal false (fst de) 1 (snd de)) x then de
      else shortest fuel' (p + 1) x num den
  end.

Fixpoint strip_zeros (fuel : nat) (de : Z * Z) : Z * Z :=
  match fuel with
  | O => de
  | S fuel' =>
      if ((fst de mod 10 =? 0) && negb (fst de =? 0))%Z
      then strip_zeros fuel' ((fst de / 10)%Z, (snd de + 1)%Z)
      else de
  end.

Definition minus (s : bool) : list byte := if s then ["-"%byte] else [].

(** A float64 as Python's [repr] writes it: the shortest digits that read
    back as the same value, in fixed notation for exponents from -4 to 15
    and in scientific notation otherwise; [NaN] is the empty field. *)
Definition write_float (x : float) : list byte :=
  match Prim2SF x with
  | S754_nan => []
  | S754_infinity s => minus s ++ list_byte_of_string "inf"
  | S754_zero s => minus s ++ list_byte_of_string "0.0"
  | S754_finite s m e =>
      let num := (if 0 <=? e then Zpos m * 2 ^ e else Zpos m)%Z in
      let den := (if 0 <=? e then 1 else 2 ^ (- e))%Z in
      let de := strip_zeros 20 (shortest 16 1 (abs x) num den) in
      let ds := write_Z (fst de) in
      let x10 := (Z.of_nat (length ds) + snd de - 1)%Z in
      minus s ++
      (if ((-4 <=? x10) && (x10 <? 16))%Z then
         if (x10 <? 0)%Z then
           list_byte_of_string "0." ++ repeat "0"%byte (Z.to_nat (- x10 - 1))
           ++ ds
         else if (0 <=? snd de)%Z then
           ds ++ repeat "0"%byte (Z.to_nat (snd de))
           ++ list_byte_of_string ".0"
         else firstn (Z.to_nat (x10 + 1)) ds ++ "."%byte
              :: skipn (Z.to_nat (x10 + 1)) ds
       else
         firstn 1 ds
         ++ (if (1 <? length ds)%nat then "."%byte :: skipn 1 ds else [])
         ++ "e"%byte :: (if (x10 <? 0)%Z then "-"%byte else "+"%byte)
         :: pad2 (Z.abs x10))
  end.

(** An instant as pandas writes it: the date, followed by the time of day
    unless it is midnight (whole seconds). *)
Definition write_instant (t : Z) : list byte :=
  let '(y, m, d) := civil_from_days (t / ns_per_day) in
  let s := ((t mod ns_per_day) / 1000000000)%Z in
  pad4 y ++ "-"%byte :: pad2 m ++ "-"%byte :: pad2 d
  ++ (if (t mod ns_per_day =? 0)%Z then []
      else " "%byte :: pad2 (s / 3600) ++ ":"%byte
           :: pad2 (s / 60 mod 60) ++ ":"%byte :: pad2 (s mod 60)).

Definition write_cell (v : cell) : list byte :=
  match v with
  | Num x => write_float x
  | Str s => list_byte_of_string s
  | Time t => write_instant t
  | NA => []
  end.

Fixpoint join (sep : byte) (l : list (list byte)) : list byte :=
  match l with
  | [] => []
  | [f] => f
  | f :: l' => f ++ sep :: join sep l'
  end.

(** Header line, then one line per row. *)
Definition to_csv (df : DataFrame) : list byte :=
  concat (map (fun fs => join ","%byte fs ++ [x0a])
              (map list_byte_of_string (names df)
               :: map (map write_cell) (rows df))).










End Reference.

(* ================================================================= *)
(** ** Sample uploads *)

Module Examples.
Local Open Scope string_scope.
Local Open Scope float_scope.

Definition lines (l : list string) : list byte :=
  concat (map (fun s => (list_byte_of_string s ++ [x0a])%list) l).

(** A page visit with only the file chosen. *)
Definition visit (b : list byte) : Widgets :=
  mkWidgets (Some (upload b)) None None None.

(** A sensor that never moves. *)
Definition steady_log : list byte := lines ["temp"; "5"; "5"; "5"].
Definition steady : DataFrame :=
  mkDF [("temp", Number)] [[Num 5]; [Num 5]; [Num 5]].

(** A sensor that never moves, at a faint reading. *)
Definition faint_log : list byte :=
  lines ["temp"; "7e-150"; "7e-150"; "7e-150"].
Definition faint : DataFrame :=
  mkDF [("temp", Number)] [[Num 7e-150]; [Num 7e-150]; [Num 7e-150]].

(** Ten quiet readings and one spike. *)
Definition spike_log : list byte :=
  lines ["temp"; "0"; "0"; "0"; "0"; "0"; "0"; "0"; "0"; "0"; "0"; "11"].
Definition spike : DataFrame :=
  mkDF [("temp", Number)]
       [[Num 0]; [Num 0]; [Num 0]; [Num 0]; [Num 0]; [Num 0]; [Num 0];
        [Num 0]; [Num 0]; [Num 0]; [Num 11]].

(** Nine readings of 20.0, then 20.1 and 21.0. *)
Definition drift_log : list byte :=
  lines ["temp"; "20.0"; "20.0"; "20.0"; "20.0"; "20.0"; "20.0"; "20.0";
         "20.0"; "20.0"; "20.1"; "21.0"].
Definition drift : DataFrame :=
  mkDF [("temp", Number)]
       [[Num 20]; [Num 20]; [Num 20]; [Num 20]; [Num 20]; [Num 20];
        [Num 20]; [Num 20]; [Num 20]; [Num 20.1]; [Num 21]].

(** A log whose header is the Korean word for temperature, encoded in
    CP949: [BF C2 B5 B5]. *)
Definition korean_log : list byte :=
  ([xbf; xc2; xb5; xb5; x0a] ++ lines ["21"; "22"])%list.

(** A dated log, out of order, with one timestamp that does not parse. *)
Definition dated_log : list byte :=
  lines ["timestamp,temp"; "2024-01-03,21"; "bad,22"; "2024-01-01,23";
         "2024-01-02,24"].
Definition dated : DataFrame :=
  mkDF [("timestamp", Object); ("temp", Number)]
       [[Str "2024-01-03"; Num 21]; [Str "bad"; Num 22];
        [Str "2024-01-01"; Num 23]; [Str "2024-01-02"; Num 24]].

(** Readings at several times of day, over three days. *)
Definition shifts_log : list byte :=
  lines ["timestamp,temp"; "2024-01-01 23:59:59,21"; "2024-01-02 00:00:00,22";
         "2024-01-02 12:30:00,23"; "2024-01-02 23:59:59,24";
         "2024-01-03 00:00:00,25"].
Definition shifts : DataFrame :=
  mkDF [("timestamp", Object); ("temp", Number)]
       [[Str "2024-01-01 23:59:59"; Num 21];
        [Str "2024-01-02 00:00:00"; Num 22];
        [Str "2024-01-02 12:30:00"; Num 23];
        [Str "2024-01-02 23:59:59"; Num 24];
        [Str "2024-01-03 00:00:00"; Num 25]].

(** Two sensors, the second with a gap. *)
Definition twin : DataFrame :=
  mkDF [("temp", Number); ("pressure", Number)]
       [[Num 1; Num 2]; [Num 2; Num 4]; [Num 3; NA]].




(** A log whose timestamps are tick counts. *)
Definition ticks_log : list byte :=
  lines ["timestamp,temp"; "3,21"; "1,22"; "2,23"].
Definition ticks : DataFrame :=
  mkDF [("timestamp", Number); ("temp", Number)]
       [[Num 3; Num 21]; [Num 1; Num 22]; [Num 2; Num 23]].



(** Eleven dated readings, the last one a spike. *)
Definition watch_log : list byte :=
  lines ["timestamp,temp"; "2024-01-01,0"; "2024-01-02,0"; "2024-01-03,0";
         "2024-01-04,0"; "2024-01-05,0"; "2024-01-06,0"; "2024-01-07,0";
         "2024-01-08,0"; "2024-01-09,0"; "2024-01-10,0"; "2024-01-11,11"].
Definition watch : DataFrame :=
  mkDF [("timestamp", Object); ("temp", Number)]
       [[Str "2024-01-01"; Num 0]; [Str "2024-01-02"; Num 0];
        [Str "2024-01-03"; Num 0]; [Str "2024-01-04"; Num 0];
        [Str "2024-01-05"; Num 0]; [Str "2024-01-06"; Num 0];
        [Str "2024-01-07"; Num 0]; [Str "2024-01-08"; Num 0];
        [Str "2024-01-09"; Num 0]; [Str "2024-01-10"; Num 0];
        [Str "2024-01-11"; Num 11]].

(** Two sensors and a text column, one reading far off. *)
Definition plant_log : list byte :=
  lines ["line,temp,rpm"; "a,20.1,1500"; "a,20.1,1500"; "b,20.1,1500";
         "b,20.1,1500"; "a,20.1,1500"; "a,20.1,1500"; "b,20.1,1500";
         "b,20.1,1500"; "a,20.1,1500"; "a,20.1,1500"; "b,98.6,1500"].
Definition plant : DataFrame :=
  mkDF [("line", Object); ("temp", Number); ("rpm", Number)]
       [[Str "a"; Num 20.1; Num 1500]; [Str "a"; Num 20.1; Num 1500];
        [Str "b"; Num 20.1; Num 1500]; [Str "b"; Num 20.1; Num 1500];
        [Str "a"; Num 20.1; Num 1500]; [Str "a"; Num 20.1; Num 1500];
        [Str "b"; Num 20.1; Num 1500]; [Str "b"; Num 20.1; Num 1500];
        [Str "a"; Num 20.1; Num 1500]; [Str "a"; Num 20.1; Num 1500];
        [Str "b"; Num 98.6; Num 1500]].


End Examples.

(* ================================================================= *)
(** * Properties *)

(** ** float64 facts

    The primitive operations are those of IEEE 754 binary64, as the
    library specifies them on [spec_float]. *)

Section FloatFacts.
Local Open Scope float_scope.

Lemma SFcompare_refl (x : spec_float) :
  x <> S754_nan -> SFcompare x x = Some Eq.
Proof.
  destruct x as [[|]|[|]| |[|] m e]; simpl; intros H; try reflexivity;
    try contradiction;
    now rewrite Z.compare_refl, Pos.compare_cont_refl.
Qed.

Lemma is_nan_spec (x : float) : is_nan x = true <-> Prim2SF x = S754_nan.
Proof.
  unfold is_nan. rewrite eqb_spec. unfold SFeqb. split.
  - intros H. destruct (Prim2SF x) eqn:E; try reflexivity;
      rewrite SFcompare_refl in H by discriminate; discriminate.
  - intros ->. reflexivity.
Qed.

Lemma is_nan_eq (x : float) : is_nan x = true -> x = nan.
Proof.
  intros H. apply is_nan_spec in H. apply Prim2SF_inj. now rewrite H.
Qed.

Lemma nan_zero_or_nan (x : float) : is_nan x = true -> zero_or_nan x.
Proof. intros H. apply is_nan_spec in H. unfold zero_or_nan. now rewrite H. Qed.










(** A zero or a [NaN] does not compare above the threshold. *)
Lemma gt_zero_or_nan (a : float) : zero_or_nan a -> gt a 3 = false.
Proof.
  unfold zero_or_nan, gt. rewrite ltb_spec.
  change (Prim2SF 3) with (S754_finite false 6755399441055744 (-51)).
  now destruct (Prim2SF a).
Qed.





End FloatFacts.

(* ================================================================= *)
(** ** Counts and shares as float64 *)

Section CountFacts.
Local Open Scope Z_scope.

Lemma digits2_pos_bounds (p : positive) :
  2 ^ Zpos (digits2_pos p) <= 2 * Zpos p /\ Zpos p < 2 ^ Zpos (digits2_pos p).
Proof.
  induction p as [p IH|p IH|]; cbn [digits2_pos].
  - rewrite Pos2Z.inj_succ, Z.pow_succ_r, (Pos2Z.inj_xI p) by lia.
    generalize dependent (2 ^ Zpos (digits2_pos p)). intros x IH. lia.
  - rewrite Pos2Z.inj_succ, Z.pow_succ_r, (Pos2Z.inj_xO p) by lia.
    generalize dependent (2 ^ Zpos (digits2_pos p)). intros x IH. lia.
  - simpl. lia.
Qed.

Lemma digits2_pos_iter (p n : positive) :
  digits2_pos (Pos.iter xO p n) = (digits2_pos p + n)%positive.
Proof.
  induction n as [|n IH] using Pos.peano_ind.
  - simpl. lia.
  - rewrite Pos.iter_succ. cbn [digits2_pos]. rewrite IH. lia.
Qed.

(** A mantissa of 53 bits with an exponent in range is rounded to itself. *)
Lemma round_exact (s : bool) (m : positive) (e : Z) :
  Zpos (digits2_pos m) = 53 -> -1074 <= e <= 971 ->
  binary_round_aux prec emax s (Zpos m) e loc_Exact = S754_finite s m e.
Proof.
  intros Hd He. unfold binary_round_aux, shr_fexp. cbn [Zdigits2].
  rewrite Hd.
  replace (fexp prec emax (53 + e)) with e
    by (unfold fexp, emin, prec, emax; lia).
  rewrite Z.sub_diag. cbn [shr shr_record_of_loc shr_m loc_of_shr_record
                           round_nearest_even Zdigits2].
  rewrite Hd.
  replace (fexp prec emax (53 + e)) with e
    by (unfold fexp, emin, prec, emax; lia).
  rewrite Z.sub_diag. cbn [shr shr_record_of_loc shr_m].
  replace (e <=? emax - prec) with true
    by (symmetry; apply Z.leb_le; unfold emax, prec; lia).
  reflexivity.
Qed.

(** An integer below [2 ^ 53] is a float64, exactly. *)
Lemma normalize_small (p : positive) :
  Zpos p < 2 ^ 53 ->
  exists m e, binary_normalize prec emax (Zpos p) 0 false
              = S754_finite false m e.
Proof.
  intros Hp. pose proof (digits2_pos_bounds p) as [Hb1 Hb2].
  assert (Hd : 1 <= Zpos (digits2_pos p) <= 53).
  { split; [lia|].
    destruct (Z.le_gt_cases (Zpos (digits2_pos p)) 53) as [H | H]; [exact H|].
    exfalso.
    assert (2 ^ 54 <= 2 ^ Zpos (digits2_pos p))
      by (apply Z.pow_le_mono_r; lia).
    change (2 ^ 54) with (2 * 2 ^ 53) in *. lia. }
  unfold binary_normalize, binary_round.
  replace (fexp prec emax (Zpos (digits2_pos p) + 0))
    with (Zpos (digits2_pos p) - 53)
    by (unfold fexp, emin, prec, emax; lia).
  unfold shl_align.
  destruct (Zpos (digits2_pos p) - 53 - 0) as [|q|q] eqn:E; [|lia|].
  - exists p, 0. apply round_exact; lia.
  - exists (Pos.iter xO p q), (Zpos (digits2_pos p) - 53).
    apply round_exact; [|lia]. rewrite digits2_pos_iter. lia.
Qed.

Lemma of_nat_small (n : nat) :
  Z.of_nat n < 2 ^ 53 ->
  Prim2SF (of_nat n) = S754_zero false \/
  exists m e, Prim2SF (of_nat n) = S754_finite false m e.
Proof.
  intros Hn. unfold of_nat, of_Z.
  destruct (Z.of_nat n) as [|p|p] eqn:E; [now left | right | lia].
  rewrite of_uint63_spec, Uint63.of_Z_spec.
  rewrite Z.mod_small
    by (change Uint63Axioms.wB with (2 ^ 63);
        assert (2 ^ 53 < 2 ^ 63) by reflexivity; lia).
  now apply normalize_small.
Qed.

Lemma of_nat_positive (n : nat) :
  (0 < n)%nat -> Z.of_nat n < 2 ^ 53 ->
  exists m e, Prim2SF (of_nat n) = S754_finite false m e.
Proof.
  intros H0 Hn. destruct (of_nat_small n Hn) as [H | H]; [|exact H].
  exfalso. unfold of_nat, of_Z in H.
  destruct (Z.of_nat n) as [|p|p] eqn:E; [lia | | lia].
  assert (Hp : Zpos p < 2 ^ 53) by lia.
  destruct (normalize_small p Hp) as (m & e & Hm).
  rewrite of_uint63_spec, Uint63.of_Z_spec, Z.mod_small, Hm in H
    by (change Uint63Axioms.wB with (2 ^ 63);
        assert (2 ^ 53 < 2 ^ 63) by reflexivity; lia).
  discriminate.
Qed.

(** Rounding a mantissa that is not negative never makes a [NaN]. *)
Lemma shr_1_nonneg (mrs : shr_record) :
  0 <= shr_m mrs -> 0 <= shr_m (shr_1 mrs).
Proof.
  destruct mrs as [[|[p|p|]|[p|p|]] r s]; simpl; lia.
Qed.

Lemma iter_shr_1_nonneg (p : positive) (mrs : shr_record) :
  0 <= shr_m mrs -> 0 <= shr_m (iter_pos shr_1 p mrs).
Proof.
  revert mrs. induction p as [p IH|p IH|]; intros mrs H; simpl.
  - apply IH, IH. now apply shr_1_nonneg.
  - now apply IH, IH.
  - now apply shr_1_nonneg.
Qed.

Lemma shr_fexp_nonneg (m e : Z) (l : location) :
  0 <= m -> 0 <= shr_m (fst (shr_fexp prec emax m e l)).
Proof.
  intros H. unfold shr_fexp, shr.
  assert (H0 : 0 <= shr_m (shr_record_of_loc m l))
    by (destruct l as [|[| |]]; exact H).
  destruct (fexp prec emax (Zdigits2 m + e) - e); simpl; try exact H0.
  now apply iter_shr_1_nonneg.
Qed.

Lemma round_not_nan (s : bool) (m e : Z) (l : location) :
  0 <= m -> binary_round_aux prec emax s m e l <> S754_nan.
Proof.
  intros H. unfold binary_round_aux.
  pose proof (shr_fexp_nonneg m e l H) as H1.
  destruct (shr_fexp prec emax m e l) as [mrs' e'] eqn:E1. simpl in H1.
  assert (H2 : 0 <= round_nearest_even (shr_m mrs')
                                       (loc_of_shr_record mrs')).
  { unfold round_nearest_even.
    destruct (loc_of_shr_record mrs') as [|[| |]]; try lia.
    destruct (Z.even (shr_m mrs')); lia. }
  pose proof (shr_fexp_nonneg _ e' loc_Exact H2) as H3.
  destruct (shr_fexp prec emax _ e' loc_Exact) as [mrs'' e''] eqn:E2.
  simpl in H3.
  destruct (shr_m mrs'') as [|q|q]; [discriminate | | lia].
  destruct (e'' <=? emax - prec); discriminate.
Qed.

(** A count over a positive count is a number, and so is its percentage. *)
Lemma share_not_nan (k n : nat) :
  (0 < n)%nat -> Z.of_nat k < 2 ^ 53 -> Z.of_nat n < 2 ^ 53 ->
  is_nan (of_nat k / of_nat n * 100)%float = false.
Proof.
  intros H0 Hk Hn.
  destruct (is_nan (of_nat k / of_nat n * 100)%float) eqn:E; [|reflexivity].
  exfalso. apply is_nan_spec in E.
  destruct (of_nat_positive n H0 Hn) as (mb & eb & Hb).
  rewrite mul_spec, div_spec, Hb in E.
  change (Prim2SF 100%float) with (S754_finite false 7036874417766400 (-46)) in E.
  unfold SF64div, SF64mul in E.
  destruct (of_nat_small k Hk) as [Ha | (ma & ea & Ha)]; rewrite Ha in E;
    [discriminate|].
  unfold SFdiv in E.
  destruct (SFdiv_core_binary prec emax (Zpos ma) ea (Zpos mb) eb)
    as [[mz ez] lz] eqn:Ec.
  assert (Hq : 0 <= mz).
  { unfold SFdiv_core_binary in Ec.
    destruct (Z.div_eucl _ (Zpos mb)) as [q r] eqn:Ed in Ec.
    injection Ec as <- _ _.
    match type of Ed with Z.div_eucl ?a _ = _ =>
      assert (Ha' : 0 <= a);
      [| pose proof (Z_div_mod a (Zpos mb) ltac:(lia)) as Hdm;
         rewrite Ed in Hdm; nia] end.
    destruct (_ - _ - _); try lia. apply Z.shiftl_nonneg. lia. }
  pose proof (round_not_nan (xorb false false) mz ez lz Hq) as Hr.
  destruct (binary_round_aux prec emax (xorb false false) mz ez lz)
    as [z|z| |z m e] eqn:Er; try discriminate; [contradiction|].
  unfold SFmul in E. revert E. apply round_not_nan. lia.
Qed.

End CountFacts.

(** ** Outlier detection *)

Section OutlierFacts.
Local Open Scope float_scope.







(** With at most one value present the deviation is [NaN]. *)
Lemma std_few (l : list float) : (count l <= 1)%nat -> std l = nan.
Proof.
  intros H. unfold std, var. apply Nat.leb_le in H. now rewrite H.
Qed.





End OutlierFacts.

(** ** Outlier ratio *)

Section RatioFacts.
Local Open Scope float_scope.

Lemma nth_error_combine_map {A B : Type} (f : nat -> B) (l : list A)
  (j : nat) (a : A) :
  nth_error l j = Some a ->
  nth_error (combine l (map f (seq 0 (length l)))) j = Some (a, f j).
Proof.
  intros H.
  assert (G : forall (s : nat) (l : list A) (j : nat),
             nth_error l j = Some a ->
             nth_error (combine l (map f (seq s (length l)))) j
             = Some (a, f (s + j)%nat)).
  { clear. intros s l. revert s.
    induction l as [|x l IH]; intros s [|j] H; simpl in *; try discriminate.
    - injection H as ->. now rewrite Nat.add_0_r.
    - rewrite IH by assumption. do 2 f_equal. apply f_equal. lia. }
  now rewrite G.
Qed.

Lemma filter_map_length {A B : Type} (p : B -> bool) (f : A -> B)
  (l : list A) :
  length (filter p (map f l)) = length (filter (fun a => p (f a)) l).
Proof.
  induction l as [|x l IH]; simpl; [reflexivity|].
  destruct (p (f x)); simpl; now rewrite IH.
Qed.

(** The per-column count of [True] in [z_scores > 3]. *)
Lemma sum_axis0_nth (df : DataFrame) (numeric_cols : list string)
  (j : nat) (c : string) :
  nth_error numeric_cols j = Some c ->
  length (filter (fun r => nth j r false)
                 (exceeds (z_scores df numeric_cols)))
  = length (filter (fun row => gt (z_score df c row) threshold) (rows df)).
Proof.
  intros Hc. unfold exceeds, z_scores. rewrite map_map, filter_map_length.
  f_equal. apply filter_ext. intros row. rewrite map_map.
  apply nth_error_nth.
  now rewrite nth_error_map, Hc.
Qed.

(** C4: the ratio of a numeric column is the number of rows whose z-score
    in that column exceeds the threshold, over the row count, times 100,
    in float64; the count is at most the row count; on a table with rows
    (fewer than [2 ^ 53], so that every count is a float64 exactly) the
    ratio is a number; on a table without rows the ratio is [NaN] for
    every column, a value the computation returns without a fault. *)
Theorem outlier_ratio_spec
  (df : DataFrame) (numeric_cols : list string) (j : nat) (c : string) :
  nth_error numeric_cols j = Some c ->
  let k := length (filter (fun row => gt (z_score df c row) threshold)
                          (rows df)) in
  nth_error (outlier_ratio df numeric_cols (z_scores df numeric_cols)) j
  = Some (c, of_nat k / of_nat (len df) * 100) /\
  (k <= len df)%nat /\
  ((0 < len df)%nat -> (Z.of_nat (len df) < 2 ^ 53)%Z ->
   is_nan (of_nat k / of_nat (len df) * 100) = false) /\
  (len df = 0%nat ->
   nth_error (outlier_ratio df numeric_cols (z_scores df numeric_cols)) j
   = Some (c, nan)).
Proof.
  intros Hc k.
  assert (E : nth_error (outlier_ratio df numeric_cols
                                       (z_scores df numeric_cols)) j
              = Some (c, of_nat k / of_nat (len df) * 100)).
  { unfold outlier_ratio, sum_axis0. rewrite map_map.
    rewrite (nth_error_combine_map _ _ _ _ Hc).
    now rewrite (sum_axis0_nth df _ _ _ Hc). }
  assert (Hle : (k <= len df)%nat) by apply filter_length_le.
  split; [exact E|]. split; [exact Hle|]. split.
  { intros H0 Hn. apply share_not_nan; [exact H0 | lia | exact Hn]. }
  intros Hn. rewrite E.
  assert (Hk : k = 0%nat).
  { unfold k, len in *. now destruct (rows df). }
  rewrite Hk, Hn. reflexivity.
Qed.

End RatioFacts.

(** ** Correlation *)

Section CorrFacts.
Local Open Scope float_scope.

















End CorrFacts.

(** ** Column lookup *)

Lemma index_of_nth_error (c : string) (l : list string) (j : nat) :
  index_of c l = Some j -> nth_error l j = Some c.
Proof.
  revert j. induction l as [|x l IH]; intros j H; simpl in H.
  - discriminate.
  - destruct (String.eqb c x) eqn:E.
    + injection H as <-. apply String.eqb_eq in E. now subst.
    + destruct (index_of c l) as [k|]; [|discriminate].
      injection H as <-. simpl. now apply IH.
Qed.

Lemma index_of_In (c : string) (l : list string) :
  In c l <-> exists j, index_of c l = Some j.
Proof.
  induction l as [|x l IH]; simpl.
  - split; [contradiction | intros [j H]; discriminate].
  - destruct (String.eqb c x) eqn:E.
    + apply String.eqb_eq in E. split; eauto.
    + apply String.eqb_neq in E. rewrite IH. split.
      * intros [H | [j H]]; [congruence|]. exists (S j). now rewrite H.
      * intros [j H]. right. destruct (index_of c l); [eauto | discriminate].
Qed.

(** ["timestamp" in df.columns] holds for the exact name only. *)
Lemma has_column_In (c : string) (df : DataFrame) :
  has_column c df = true <-> In c (names df).
Proof.
  unfold has_column. rewrite existsb_exists. split.
  - intros [x [Hx E]]. apply String.eqb_eq in E. now subst.
  - intros H. exists c. split; [assumption | apply String.eqb_refl].
Qed.

Lemma set_nth_length {A : Type} (j : nat) (v : A) (l : list A) :
  length (set_nth j v l) = length l.
Proof.
  revert j. induction l as [|x l IH]; intros [|j]; simpl; auto.
Qed.

Lemma nth_set_nth {A : Type} (j : nat) (v d : A) (l : list A) :
  (j < length l)%nat -> nth j (set_nth j v l) d = v.
Proof.
  revert j. induction l as [|x l IH]; intros [|j] H; simpl in *;
    try lia; auto. apply IH. lia.
Qed.

Lemma map_fst_set_nth (c : string) (dt : dtype) (j : nat)
  (l : list (string * dtype)) :
  nth_error (map fst l) j = Some c ->
  map fst (set_nth j (c, dt) l) = map fst l.
Proof.
  revert j. induction l as [|[x d] l IH]; intros [|j] H; simpl in *;
    try discriminate.
  - now injection H as ->.
  - now rewrite IH.
Qed.

Lemma names_assign (df : DataFrame) (c : string) (dt : dtype)
  (values : list cell) :
  names (assign df c dt values) = names df.
Proof.
  unfold assign. destruct (index_of c (names df)) as [j|] eqn:E;
    [|reflexivity].
  unfold names. simpl. apply map_fst_set_nth.
  now apply index_of_nth_error.
Qed.

Lemma instant_names (df df' : DataFrame) (row : list cell) :
  names df' = names df -> instant df' row = instant df row.
Proof. intros H. unfold instant, get. now rewrite H. Qed.

(** ** Sorting *)

Section SortFacts.
Context {A : Type} (key : A -> option Z).

Lemma instant_leb_total (a b : option Z) :
  instant_leb a b = false -> instant_leb b a = true.
Proof.
  destruct a, b; simpl; try discriminate; auto.
  intros H. apply Z.leb_gt in H. apply Z.leb_le. lia.
Qed.

Lemma insert_by_perm (x : A) (l : list A) :
  Permutation (insert_by key x l) (x :: l).
Proof.
  induction l as [|y l IH]; simpl.
  - reflexivity.
  - destruct (instant_leb (key x) (key y)).
    + reflexivity.
    + rewrite IH. apply perm_swap.
Qed.

Lemma sort_by_perm (l : list A) : Permutation (sort_by key l) l.
Proof.
  induction l as [|x l IH]; simpl.
  - reflexivity.
  - rewrite insert_by_perm. now constructor.
Qed.

Lemma insert_by_sorted (x : A) (l : list A) :
  Sorted (key_le key) l -> Sorted (key_le key) (insert_by key x l).
Proof.
  induction l as [|y l IH]; intros Hs; simpl.
  - repeat constructor.
  - destruct (instant_leb (key x) (key y)) eqn:E.
    + constructor; [assumption | now constructor].
    + inversion Hs as [|? ? Hs' Hhd]; subst.
      constructor; [now apply IH|].
      apply instant_leb_total in E.
      destruct l as [|z l]; simpl.
      * now constructor.
      * destruct (instant_leb (key x) (key z)); constructor; auto.
        now inversion Hhd.
Qed.

Lemma sort_by_sorted (l : list A) : Sorted (key_le key) (sort_by key l).
Proof.
  induction l as [|x l IH]; simpl.
  - constructor.
  - now apply insert_by_sorted.
Qed.

End SortFacts.

(** ** Timestamp normalisation *)

Section NormalizeFacts.
Variable to_datetime : list cell -> list (option Z).

Lemma sort_by_ext {A : Type} (k1 k2 : A -> option Z) (l : list A) :
  (forall x, k1 x = k2 x) -> sort_by k1 l = sort_by k2 l.
Proof.
  intros H. induction l as [|x l IH]; simpl; [reflexivity|].
  rewrite IH. generalize (sort_by k2 l) as s.
  induction s as [|y s IHs]; simpl; [reflexivity|].
  now rewrite !H, IHs.
Qed.

Lemma well_formed_row (df : DataFrame) (row : list cell) (j : nat) :
  well_formed df = true -> In row (rows df) ->
  index_of timestamp (names df) = Some j -> (j < length row)%nat.
Proof.
  intros Hwf Hrow Hj. unfold well_formed in Hwf.
  rewrite forallb_forall in Hwf. apply Hwf in Hrow.
  apply Nat.eqb_eq in Hrow. rewrite Hrow.
  apply index_of_nth_error in Hj.
  assert (H : nth_error (names df) j <> None) by congruence.
  apply nth_error_Some in H. unfold names in H. now rewrite length_map in H.
Qed.

Lemma dropna_assign_rows (df : DataFrame) :
  well_formed df = true -> has_column timestamp df = true ->
  rows (dropna (assign df timestamp Datetime (coerce to_datetime df)))
  = parsed_rows to_datetime df.
Proof.
  intros Hwf Hcol. apply has_column_In, index_of_In in Hcol as [j Hj].
  unfold dropna, parsed_rows. simpl.
  rewrite (filter_ext _ (fun row => match nth j row NA with
                                    | NA => false
                                    | _ => true
                                    end))
    by (intros row; unfold get; now rewrite names_assign, Hj).
  unfold assign, coerce. rewrite Hj. simpl.
  assert (Hrows : forall row, In row (rows df) -> (j < length row)%nat)
    by (intros row Hrow; now apply (well_formed_row df)).
  clear Hwf. revert Hrows.
  generalize (to_datetime (column df timestamp)) as os.
  generalize (rows df) as l.
  induction l as [|row l IH]; intros os Hrows; [reflexivity|].
  destruct os as [|o os]; [reflexivity|]. simpl.
  rewrite nth_set_nth by (apply Hrows; now left).
  rewrite IH by (intros; apply Hrows; now right).
  unfold stamp. rewrite Hj. now destruct o.
Qed.

Lemma parsed_rows_instant (df : DataFrame) (row : list cell) :
  well_formed df = true -> has_column timestamp df = true ->
  In row (parsed_rows to_datetime df) ->
  exists t, instant df row = Some t.
Proof.
  intros Hwf Hcol Hin. apply has_column_In, index_of_In in Hcol as [j Hj].
  unfold parsed_rows in Hin.
  apply in_flat_map in Hin as [[row0 o] [Hrow0 Hin]].
  apply in_combine_l in Hrow0. simpl in Hin.
  destruct o as [t|]; [|contradiction].
  destruct Hin as [<- | []]. exists t.
  unfold instant, stamp, get. rewrite Hj.
  rewrite nth_set_nth; [reflexivity|]. now apply (well_formed_row df).
Qed.

Lemma normalize_rows (df : DataFrame) :
  rows (normalize to_datetime df)
  = sort_by (instant (dropna (assign df timestamp Datetime
                                     (coerce to_datetime df))))
            (rows (dropna (assign df timestamp Datetime
                                  (coerce to_datetime df)))).
Proof. reflexivity. Qed.


Lemma instant_get (df : DataFrame) (row : list cell) (t : Z) :
  instant df row = Some t <-> get df row timestamp = Time t.
Proof.
  unfold instant. destruct (get df row timestamp); split; congruence.
Qed.

(** Rows in ascending order of their keys, all of which are instants,
    carry instants in ascending order. *)
Lemma sorted_stamps (df : DataFrame) (l : list (list cell)) :
  Sorted (key_le (instant df)) l ->
  Forall (fun row => exists t, instant df row = Some t) l ->
  exists ts, map (fun row => get df row timestamp) l = map Time ts /\
             Sorted Z.le ts.
Proof.
  induction l as [|row l IH]; intros Hs Hall.
  - exists []. split; [reflexivity | constructor].
  - inversion Hs as [|? ? Hs' Hhd]; subst.
    inversion Hall as [|? ? [t Ht] Hall']; subst.
    destruct (IH Hs' Hall') as (ts & Hts & Hsorted).
    exists (t :: ts). split.
    + simpl. rewrite Hts. f_equal. now apply instant_get.
    + constructor; [exact Hsorted|].
      destruct l as [|row' l]; destruct ts as [|t' ts];
        try discriminate; constructor.
      inversion Hhd as [|? ? Hle]; subst.
      simpl in Hts. injection Hts as Ht' _.
      apply instant_get in Ht'. unfold key_le in Hle.
      rewrite Ht, Ht' in Hle. now apply Z.leb_le.
Qed.

Lemma normalize_sorted (df : DataFrame) :
  Sorted (key_le (instant (normalize to_datetime df)))
         (rows (normalize to_datetime df)).
Proof.
  rewrite normalize_rows at 1.
  rewrite (sort_by_ext _ (instant (normalize to_datetime df))).
  - apply sort_by_sorted.
  - intros row. symmetry. apply instant_names. reflexivity.
Qed.

Lemma names_normalize (df : DataFrame) :
  names (normalize to_datetime df) = names df.
Proof.
  unfold normalize, sort_values, dropna, names. simpl. apply names_assign.
Qed.

Lemma normalize_perm (df : DataFrame) :
  well_formed df = true -> has_column timestamp df = true ->
  Permutation (rows (normalize to_datetime df)) (parsed_rows to_datetime df).
Proof.
  intros Hwf Hcol. rewrite normalize_rows, sort_by_perm.
  now rewrite dropna_assign_rows.
Qed.

Lemma normalize_instants (df : DataFrame) (row : list cell) :
  well_formed df = true -> has_column timestamp df = true ->
  In row (rows (normalize to_datetime df)) ->
  exists t, instant (normalize to_datetime df) row = Some t.
Proof.
  intros Hwf Hcol Hin.
  rewrite (instant_names df _ row (names_normalize df)).
  apply parsed_rows_instant; auto.
  eapply Permutation_in; [apply normalize_perm; assumption | exact Hin].
Qed.

(** C5: normalisation runs exactly when a column is named [timestamp]
    (the comparison is on the exact string).  It parses, then drops, then
    sorts: its rows are the rows whose timestamp parses, each with the
    parsed instant under [timestamp], and these instants are in ascending
    order ([<=] on the nanosecond counts) down the table; the rows that do
    not parse are left out and the run goes on. *)
Theorem normalize_spec (w : Widgets) (df : DataFrame) :
  well_formed df = true ->
  (has_column timestamp df = true <-> In timestamp (names df)) /\
  (has_column timestamp df = false ->
   prepare to_datetime w df = ([], Some df)) /\
  (has_column timestamp df = true ->
   let df' := normalize to_datetime df in
   df' = sort_values (dropna (assign df timestamp Datetime
                                     (coerce to_datetime df))) /\
   names df' = names df /\
   Permutation (rows df') (parsed_rows to_datetime df) /\
   (exists ts,
      map (fun row => get df' row timestamp) (rows df') = map Time ts /\
      Sorted Z.le ts) /\
   prepare to_datetime w df
   = ([DatePickers (start_date df' (start_pick w))
                   (end_date df' (end_pick w))],
      Some (filter_by_date df' (start_pick w) (end_pick w)))).
Proof.
  intros Hwf. split; [apply has_column_In|]. split.
  - intros H. unfold prepare. now rewrite H.
  - intros Hcol df'.
    split; [reflexivity|]. split; [apply names_normalize|].
    split; [now apply normalize_perm|]. split.
    + apply sorted_stamps; [apply normalize_sorted|].
      apply Forall_forall. intros row Hrow. now apply normalize_instants.
    + unfold prepare. rewrite Hcol. reflexivity.
Qed.

End NormalizeFacts.

(** ** Date filter *)

Section DateFacts.
Local Open Scope Z_scope.

Lemma loc_rows (df : DataFrame) (f : list cell -> bool) :
  rows (loc df (map f (rows df))) = filter f (rows df).
Proof.
  unfold loc. simpl. generalize (rows df) as l.
  induction l as [|x l IH]; simpl; [reflexivity|].
  destruct (f x); simpl; now rewrite IH.
Qed.

Lemma filter_none {A : Type} (f : A -> bool) (l : list A) :
  (forall x, In x l -> f x = false) -> filter f l = [].
Proof.
  induction l as [|x l IH]; intros H; simpl; [reflexivity|].
  rewrite (H x) by now left. apply IH. intros y Hy. apply H. now right.
Qed.

Lemma date_of_mono (a b : Z) : a <= b -> date_of a <= date_of b.
Proof.
  intros H. unfold date_of, ns_per_day. apply Z.div_le_mono; lia.
Qed.

(** The date of an instant is the day its nanosecond count falls in:
    the time of day does not count. *)
Lemma date_of_day (t d : Z) :
  date_of t = d <-> d * 86400000000000 <= t < (d + 1) * 86400000000000.
Proof.
  unfold date_of, ns_per_day.
  pose proof (Z.div_mod t 86400000000000 ltac:(lia)).
  pose proof (Z.mod_pos_bound t 86400000000000 ltac:(lia)).
  split; intros.
  - subst d. lia.
  - symmetry. apply Z.div_unique with (r := t - 86400000000000 * d); lia.
Qed.

Lemma date_of_between (t s e : Z) :
  s <= date_of t <= e
  <-> s * 86400000000000 <= t < (e + 1) * 86400000000000.
Proof.
  pose proof (proj1 (date_of_day t (date_of t)) eq_refl).
  split; intros; [lia|]. unfold date_of, ns_per_day. split.
  - apply Z.div_le_lower_bound; lia.
  - assert (t / 86400000000000 < e + 1);
      [apply Z.div_lt_upper_bound; lia | lia].
Qed.

Lemma opt_fold_min_le (l : list (option Z)) (t : Z) :
  In (Some t) l -> exists lo, opt_fold Z.min l = Some lo /\ lo <= t.
Proof.
  induction l as [|[x|] l IH]; simpl; intros H.
  - contradiction.
  - destruct H as [H | H].
    + injection H as ->. destruct (opt_fold Z.min l) as [y|]; eexists;
        (split; [reflexivity | lia]).
    + destruct (IH H) as [lo [E Hlo]]. rewrite E. eexists.
      split; [reflexivity | lia].
  - destruct H as [H | H]; [discriminate | auto].
Qed.

Lemma opt_fold_max_ge (l : list (option Z)) (t : Z) :
  In (Some t) l -> exists hi, opt_fold Z.max l = Some hi /\ t <= hi.
Proof.
  induction l as [|[x|] l IH]; simpl; intros H.
  - contradiction.
  - destruct H as [H | H].
    + injection H as ->. destruct (opt_fold Z.max l) as [y|]; eexists;
        (split; [reflexivity | lia]).
    + destruct (IH H) as [hi [E Hhi]]. rewrite E. eexists.
      split; [reflexivity | lia].
  - destruct H as [H | H]; [discriminate | auto].
Qed.

Lemma opt_fold_In (f : Z -> Z -> Z) (l : list (option Z)) (v : Z) :
  (forall a b, f a b = a \/ f a b = b) ->
  opt_fold f l = Some v -> In (Some v) l.
Proof.
  intros Hf. revert v. induction l as [|[x|] l IH]; simpl; intros v H.
  - discriminate.
  - destruct (opt_fold f l) as [y|].
    + injection H as <-. destruct (Hf x y) as [-> | ->]; auto.
    + injection H as ->. now left.
  - right. now apply IH.
Qed.

Lemma instant_In (df : DataFrame) (t : Z) :
  In (Some t) (map (instant df) (rows df)) <->
  exists row, In row (rows df) /\ instant df row = Some t.
Proof.
  rewrite in_map_iff. split; intros [row [H1 H2]]; exists row; auto.
Qed.

(** The comparison of line 64 on one row, on the nanosecond counts. *)
Lemma in_range_spec (df : DataFrame) (sd ed : option Z) (row : list cell) :
  in_range df sd ed row = true <->
  exists t s e, get df row timestamp = Time t /\ sd = Some s /\
                ed = Some e /\
                s * 86400000000000 <= t < (e + 1) * 86400000000000.
Proof.
  unfold in_range. split.
  - destruct (instant df row) as [t|] eqn:Ht; [|discriminate].
    destruct sd as [s|]; [|discriminate].
    destruct ed as [e|]; [|discriminate].
    intros H. apply andb_true_iff in H as [H1 H2].
    apply Z.leb_le in H1, H2. exists t, s, e.
    split; [now apply instant_get|]. split; [reflexivity|].
    split; [reflexivity|]. now apply date_of_between.
  - intros (t & s & e & Ht & -> & -> & H).
    apply instant_get in Ht. rewrite Ht.
    apply date_of_between in H.
    apply andb_true_iff. split; apply Z.leb_le; lia.
Qed.

(** C6: the date filter keeps, in their order, exactly the rows whose
    timestamp falls on a day [d] with [first_day <= d <= last_day], both
    ends included and the time of day ignored: the instant lies from
    midnight of [first_day] up to, and not including, midnight of the day
    after [last_day].  A bound left unpicked is the day of the earliest,
    respectively the latest, instant in the table; when no row is in
    range the result is the table without rows. *)
Theorem filter_by_date_spec (df : DataFrame) (start_pick end_pick : option Z) :
  let first_day := start_date df start_pick in
  let last_day := end_date df end_pick in
  let kept := filter_by_date df start_pick end_pick in
  columns kept = columns df /\
  rows kept = filter (in_range df first_day last_day) (rows df) /\
  (forall row, In row (rows kept) <->
     In row (rows df) /\
     exists t s e, get df row timestamp = Time t /\ first_day = Some s /\
                   last_day = Some e /\
                   s * 86400000000000 <= t < (e + 1) * 86400000000000) /\
  (forall s, start_pick = Some s -> first_day = Some s) /\
  (forall e, end_pick = Some e -> last_day = Some e) /\
  (start_pick = None ->
   forall row t, In row (rows df) -> get df row timestamp = Time t ->
     exists lo, first_day = Some lo /\ lo * 86400000000000 <= t /\
       exists row0 t0, In row0 (rows df) /\
                       get df row0 timestamp = Time t0 /\
                       lo * 86400000000000 <= t0
                       < (lo + 1) * 86400000000000) /\
  (end_pick = None ->
   forall row t, In row (rows df) -> get df row timestamp = Time t ->
     exists hi, last_day = Some hi /\ t < (hi + 1) * 86400000000000 /\
       exists row0 t0, In row0 (rows df) /\
                       get df row0 timestamp = Time t0 /\
                       hi * 86400000000000 <= t0
                       < (hi + 1) * 86400000000000) /\
  ((forall row t s e, In row (rows df) -> get df row timestamp = Time t ->
      first_day = Some s -> last_day = Some e ->
      ~ (s * 86400000000000 <= t < (e + 1) * 86400000000000)) ->
   rows kept = []).
Proof.
  intros sd ed kept. unfold start_date, end_date in sd, ed.
  assert (Hrows : rows kept = filter (in_range df sd ed) (rows df))
    by (unfold kept, filter_by_date, date_mask; now rewrite loc_rows).
  split; [reflexivity|]. split; [exact Hrows|]. split; [|split; [|split]].
  - intros row. rewrite Hrows, filter_In, in_range_spec. reflexivity.
  - now intros s ->.
  - now intros e ->.
  - split; [|split].
    + intros -> row t Hrow Ht. unfold sd. simpl.
      apply instant_get in Ht.
      assert (Hin : In (Some t) (map (instant df) (rows df)))
        by (apply instant_In; eauto).
      destruct (opt_fold_min_le _ _ Hin) as [lo [E Hlo]].
      unfold ts_min. rewrite E. simpl. exists (date_of lo).
      split; [reflexivity|].
      pose proof (proj1 (date_of_day lo (date_of lo)) eq_refl) as Hday.
      split; [lia|].
      apply opt_fold_In in E; [|intros a b; lia].
      apply instant_In in E as [row0 [H1 H2]]. exists row0, lo.
      split; [exact H1|]. split; [now apply instant_get | exact Hday].
    + intros -> row t Hrow Ht. unfold ed. simpl.
      apply instant_get in Ht.
      assert (Hin : In (Some t) (map (instant df) (rows df)))
        by (apply instant_In; eauto).
      destruct (opt_fold_max_ge _ _ Hin) as [hi [E Hhi]].
      unfold ts_max. rewrite E. simpl. exists (date_of hi).
      split; [reflexivity|].
      pose proof (proj1 (date_of_day hi (date_of hi)) eq_refl) as Hday.
      split; [lia|].
      apply opt_fold_In in E; [|intros a b; lia].
      apply instant_In in E as [row0 [H1 H2]]. exists row0, hi.
      split; [exact H1|]. split; [now apply instant_get | exact Hday].
    + intros Hnone. rewrite Hrows. apply filter_none. intros row Hrow.
      destruct (in_range df sd ed row) eqn:E; [|reflexivity].
      apply in_range_spec in E as (t & s & e & Ht & Hs & He & H).
      exfalso. exact (Hnone row t s e Hrow Ht Hs He H).
Qed.

End DateFacts.

(** ** The script *)

Section ScriptFacts.
Variable parse_csv : encoding -> list byte -> option DataFrame.
Variable read_ahead : encoding -> list byte -> nat.
Variable to_datetime : list cell -> list (option Z).
Variable to_csv : DataFrame -> list byte.

Local Abbreviation run := (app parse_csv read_ahead to_datetime to_csv).
Local Abbreviation attempts :=
  (try_encodings parse_csv read_ahead encodings_to_try).
Local Abbreviation load := (load parse_csv read_ahead).

(** The loop takes the first encoding whose read succeeds, in the listed
    order: UTF-8 on the upload, CP949 on what the failed UTF-8 read left,
    ISO-8859-1 on what the failed CP949 read left. *)
Lemma attempts_unfold (b : list byte) :
  fst (attempts (upload b))
  = match parse_csv Utf8 b with
    | Some df => Some df
    | None =>
        let b' := skipn (read_ahead Utf8 b) b in
        match parse_csv Cp949 b' with
        | Some df => Some df
        | None =>
            parse_csv Latin1
              (skipn (read_ahead Utf8 b + read_ahead Cp949 b') b)
        end
    end.
Proof.
  unfold encodings_to_try, upload. simpl. unfold read_csv. simpl.
  destruct (parse_csv Utf8 b); [reflexivity|]. simpl.
  destruct (parse_csv Cp949 _); [reflexivity|]. simpl.
  now destruct (parse_csv Latin1 _).
Qed.

(** When no encoding parses any suffix of the stream, every attempt
    raises. *)
Lemma attempts_none (encs : list encoding) (f : UploadedFile) :
  (forall enc k, parse_csv enc (skipn k (content f)) = None) ->
  fst (try_encodings parse_csv read_ahead encs f) = None.
Proof.
  intros Hno. revert f Hno. induction encs as [|enc encs IH]; intros f Hno.
  - reflexivity.
  - simpl. unfold read_csv. rewrite Hno. apply IH. exact Hno.
Qed.

Lemma load_attempts (f : UploadedFile) :
  load f
  = match fst (attempts f) with
    | None => inl DecodeError
    | Some df => if empty df then inl EmptyInputError else inr df
    end.
Proof. reflexivity. Qed.

(** When the first encoding parses the upload, its table is taken. *)
Lemma load_first_encoding (b : list byte) (df : DataFrame) :
  parse_csv Utf8 b = Some df -> empty df = false ->
  load (upload b) = inr df.
Proof.
  intros Hp He. rewrite load_attempts, attempts_unfold.
  now rewrite Hp, He.
Qed.

(** When the first encoding raises on an upload that fits the read
    buffer, the later ones read an exhausted stream, on which pandas
    raises as well. *)
Lemma load_after_failed_read (b : list byte) :
  parse_csv Utf8 b = None ->
  (length b <= read_ahead Utf8 b)%nat ->
  (forall enc, parse_csv enc [] = None) ->
  load (upload b) = inl DecodeError.
Proof.
  intros Hp Hall Hnil. rewrite load_attempts, attempts_unfold, Hp.
  cbv zeta. rewrite !skipn_all2 by lia. now rewrite !Hnil.
Qed.

Lemma run_decode_error (w : Widgets) (f : UploadedFile) :
  uploaded_file w = Some f -> fst (attempts f) = None ->
  run w = ([Halt DecodeError], None).
Proof. intros Hf Ha. unfold app. now rewrite Hf, Ha. Qed.

Lemma run_empty (w : Widgets) (f : UploadedFile) (df : DataFrame) :
  uploaded_file w = Some f -> fst (attempts f) = Some df ->
  empty df = true ->
  run w = ([Halt EmptyInputError], None).
Proof. intros Hf Ha He. unfold app. rewrite Hf, Ha. simpl. now rewrite He. Qed.


(** The script's first two checks are [load]. *)
Lemma run_load_error (w : Widgets) (f : UploadedFile) (e : terminal) :
  uploaded_file w = Some f -> load f = inl e ->
  run w = ([Halt e], None).
Proof.
  intros Hf Hl. rewrite load_attempts in Hl.
  destruct (fst (attempts f)) as [df|] eqn:Ha.
  - destruct (empty df) eqn:He; [|discriminate].
    injection Hl as <-. now apply run_empty with (f := f) (df := df).
  - injection Hl as <-. now apply run_decode_error with (f := f).
Qed.

Lemma prepare_returns (w : Widgets) (df : DataFrame) :
  exists pickers df',
    prepare to_datetime w df = (pickers, Some df') /\
    forallb (fun e => match e with DatePickers _ _ => true | _ => false end)
            pickers = true.
Proof.
  unfold prepare. destruct (has_column timestamp df).
  - eexists. eexists. split; reflexivity.
  - eexists. eexists. split; reflexivity.
Qed.

Lemma analyse_trace (w : Widgets) (b : bool) (df : DataFrame)
  (numeric_cols : list string) :
  let z := z_scores df numeric_cols in
  let mask := outliers z in
  analyse to_csv w b df numeric_cols
  = ([Summary (rename stats_kor describe_index) (describe df numeric_cols);
      OutlierCount (length (filter (fun x => x) mask));
      OutlierRows (loc df mask);
      Alarm (0 <? length (filter (fun x => x) mask))%nat;
      Download (to_csv (loc df mask));
      RatioChart (outlier_ratio df numeric_cols z);
      Heatmap (corr df numeric_cols);
      if b then TimeSeries (match selected_pick w with
                            | Some c => c
                            | None => hd EmptyString numeric_cols
                            end) df (loc df mask)
      else NoTimeSeries], Some tt).
Proof. unfold analyse. now destruct b. Qed.

Lemma run_analysis (w : Widgets) (f : UploadedFile) (df0 : DataFrame)
  (pickers : list event) (df : DataFrame) :
  uploaded_file w = Some f -> fst (attempts f) = Some df0 ->
  empty df0 = false -> select_dtypes_number df0 <> [] ->
  prepare to_datetime w df0 = (pickers, Some df) ->
  run w = (Preview (head df0) :: pickers
           ++ trace (analyse to_csv w (has_column timestamp df0) df
                             (select_dtypes_number df0)), Some tt).
Proof.
  intros Hf Ha He Hn Hp. unfold app. rewrite Hf, Ha. simpl. rewrite He.
  destruct (select_dtypes_number df0) as [|c cs] eqn:Hc; [contradiction|].
  simpl. rewrite Hp. unfold bind. rewrite !analyse_trace. reflexivity.
Qed.




Lemma combine_fst {A B : Type} (l : list A) (l' : list B) :
  length l = length l' -> map fst (combine l l') = l.
Proof.
  revert l'. induction l as [|x l IH]; intros [|y l'] H; simpl in *;
    try discriminate; [reflexivity|].
  f_equal. apply IH. lia.
Qed.

Lemma filter_split_perm {A : Type} (f : A -> bool) (l : list A) :
  Permutation (filter f l ++ filter (fun x => negb (f x)) l) l.
Proof.
  induction l as [|x l IH]; simpl; [reflexivity|].
  destruct (f x); simpl.
  - now constructor.
  - rewrite <- Permutation_middle. now constructor.
Qed.

Lemma nth_error_set_nth {A : Type} (j : nat) (v : A) (l : list A) :
  (j < length l)%nat -> nth_error (set_nth j v l) j = Some v.
Proof.
  revert j. induction l as [|x l IH]; intros [|j] H; simpl in *;
    try lia; auto. apply IH. lia.
Qed.

(** C10: the numeric columns are read off the table as loaded.  A run
    that reaches the analysis keys its statistics, z-scores, ratios and
    correlations by that list, whatever normalisation and date filtering
    did: these keep the column names, and the working table's rows are
    rows of the loaded table that parsed, in some order.  A [timestamp]
    column that loads as numbers is in the list, and stays in it while its
    cells have become instants. *)
Theorem numeric_cols_fixed (w : Widgets) (f : UploadedFile) (df0 : DataFrame) :
  uploaded_file w = Some f -> fst (attempts f) = Some df0 ->
  empty df0 = false -> select_dtypes_number df0 <> [] ->
  well_formed df0 = true ->
  let numeric_cols := select_dtypes_number df0 in
  exists pickers df,
    prepare to_datetime w df0 = (pickers, Some df) /\
    run w = (Preview (head df0) :: pickers
             ++ trace (analyse to_csv w (has_column timestamp df0) df
                               numeric_cols), Some tt) /\
    map fst (describe df numeric_cols) = numeric_cols /\
    map fst (outlier_ratio df numeric_cols (z_scores df numeric_cols))
    = numeric_cols /\
    length (corr df numeric_cols) = length numeric_cols /\
    names df = names df0 /\
    (has_column timestamp df0 = false -> df = df0) /\
    (has_column timestamp df0 = true ->
     exists dropped,
       Permutation (rows df ++ dropped) (parsed_rows to_datetime df0)) /\
    (In (timestamp, Number) (columns df0) ->
     In timestamp numeric_cols /\
     exists j, index_of timestamp (names df0) = Some j /\
               nth_error (columns df) j = Some (timestamp, Datetime)).
Proof.
  intros Hf Ha He Hn Hwf numeric_cols.
  destruct (prepare to_datetime w df0) as [pickers [df|]] eqn:Hp;
    [|destruct (prepare_returns w df0) as (? & ? & E & _); congruence].
  exists pickers, df. split; [reflexivity|].
  split; [now apply run_analysis with (f := f)|].
  split; [unfold describe; rewrite map_map; apply map_id|].
  split.
  { unfold outlier_ratio, sum_axis0. apply combine_fst.
    now rewrite !length_map, length_seq. }
  split; [unfold corr; rewrite length_map, length_combine, length_seq; lia|].
  unfold prepare in Hp.
  destruct (has_column timestamp df0) eqn:Hcol.
  - simpl in Hp. injection Hp as _ <-.
    set (nd := normalize to_datetime df0).
    set (s := start_date nd (start_pick w)).
    set (e := end_date nd (end_pick w)).
    assert (Hnames : names nd = names df0)
      by (unfold nd, normalize, sort_values, dropna, names; simpl;
          apply names_assign).
    split; [exact Hnames|]. split; [discriminate|]. split.
    + intros _. exists (filter (fun row => negb (in_range nd s e row)) (rows nd)).
      unfold filter_by_date, date_mask. fold s e.
      rewrite loc_rows, filter_split_perm.
      unfold nd. rewrite normalize_rows, sort_by_perm.
      now rewrite dropna_assign_rows.
    + intros Hin. split.
      * unfold numeric_cols, select_dtypes_number.
        apply (in_map fst _ (timestamp, Number)), filter_In. now split.
      * apply has_column_In, index_of_In in Hcol as [j Hj]. exists j.
        split; [exact Hj|]. simpl. unfold assign. rewrite Hj. simpl.
        apply nth_error_set_nth. apply index_of_nth_error in Hj.
        assert (H : nth_error (names df0) j <> None) by congruence.
        apply nth_error_Some in H. unfold names in H.
        now rewrite length_map in H.
  - injection Hp as _ <-. split; [reflexivity|]. split; [reflexivity|].
    split; [discriminate|].
    intros Hin. exfalso.
    assert (H : has_column timestamp df0 = true).
    { apply has_column_In. unfold names.
      now apply (in_map fst _ (timestamp, Number)). }
    congruence.
Qed.

End ScriptFacts.

(** ** Export and reload *)

Section ExportFacts.
Import Reference.


















End ExportFacts.

(* ================================================================= *)
(** * Further properties of the detector *)

Section DetectorValues.
Local Open Scope float_scope.

Lemma abs_not_negative (x : float) : (abs x <? 0) = false.
Proof.
  rewrite ltb_spec, abs_spec. change (Prim2SF 0) with (S754_zero false).
  now destruct (Prim2SF x) as [s|s| |s m e].
Qed.

Lemma nan_sub_l (a b : float) : is_nan a = true -> is_nan (a - b) = true.
Proof.
  rewrite !is_nan_spec, sub_spec. now intros ->.
Qed.

Lemma nan_div_l (a b : float) : is_nan a = true -> is_nan (a / b) = true.
Proof.
  rewrite !is_nan_spec, div_spec. now intros ->.
Qed.

Lemma nan_div_r (a b : float) : is_nan b = true -> is_nan (a / b) = true.
Proof.
  rewrite !is_nan_spec, div_spec. intros ->. unfold SF64div.
  now destruct (Prim2SF a).
Qed.

Lemma nan_abs (a : float) : is_nan a = true -> is_nan (abs a) = true.
Proof.
  rewrite !is_nan_spec, abs_spec. now intros ->.
Qed.

(** X1: a z-score is never negative.  It is [NaN] on a missing cell and
    in a column with fewer than two values present, and a [NaN] z-score
    flags nothing. *)
Theorem z_score_range (df : DataFrame) (c : string) (row : list cell) :
  (z_score df c row <? 0) = false /\
  (is_nan (as_float (get df row c)) = true ->
   is_nan (z_score df c row) = true) /\
  ((count (series df c) <= 1)%nat -> is_nan (z_score df c row) = true) /\
  (is_nan (z_score df c row) = true ->
   gt (z_score df c row) threshold = false).
Proof.
  split; [apply abs_not_negative|]. split; [|split].
  - intros H. now apply nan_abs, nan_div_l, nan_sub_l.
  - intros H. apply nan_abs, nan_div_r. now rewrite std_few.
  - intros H. now apply gt_zero_or_nan, nan_zero_or_nan.
Qed.

End DetectorValues.

Section DetectorCounts.
Variable to_csv : DataFrame -> list byte.

Lemma outliers_map (df : DataFrame) (numeric_cols : list string) :
  outliers (z_scores df numeric_cols)
  = map (fun row => existsb (fun c => gt (z_score df c row) threshold)
                            numeric_cols) (rows df).
Proof.
  unfold outliers, any_axis1, exceeds, z_scores. rewrite !map_map.
  apply map_ext. intros row. rewrite map_map.
  induction numeric_cols as [|c cs IH]; simpl; [reflexivity|].
  now rewrite IH.
Qed.

Lemma loc_length (df : DataFrame) (f : list cell -> bool) :
  len (loc df (map f (rows df))) = length (filter (fun b => b)
                                                  (map f (rows df))).
Proof.
  unfold len. rewrite loc_rows. generalize (rows df) as l.
  induction l as [|x l IH]; simpl; [reflexivity|].
  destruct (f x); simpl; now rewrite IH.
Qed.

(** X5: what the run reports about the flagged rows agrees: the count
    shown is the number of rows of the table shown, which is the table
    exported; the alarm is on exactly when that table has a row; and its
    rows are the rows of the working table at the flagged positions,
    under the same columns. *)
Theorem outlier_report_consistent (w : Widgets) (b : bool) (df : DataFrame)
  (numeric_cols : list string) :
  let mask := outliers (z_scores df numeric_cols) in
  let sub := loc df mask in
  In (OutlierCount (len sub)) (trace (analyse to_csv w b df numeric_cols)) /\
  In (OutlierRows sub) (trace (analyse to_csv w b df numeric_cols)) /\
  In (Alarm (negb (len sub =? 0)%nat))
     (trace (analyse to_csv w b df numeric_cols)) /\
  In (Download (to_csv sub)) (trace (analyse to_csv w b df numeric_cols)) /\
  columns sub = columns df /\
  (len sub <= len df)%nat /\
  (forall row, In row (rows sub) <->
     exists r, nth_error (rows df) r = Some row /\
               nth_error mask r = Some true).
Proof.
  intros mask sub.
  assert (Hlen : length (filter (fun x => x) mask) = len sub)
    by (unfold sub, mask; rewrite outliers_map; symmetry; apply loc_length).
  rewrite analyse_trace. cbv zeta. fold mask. fold sub. rewrite Hlen.
  split; [simpl; auto|]. split; [simpl; auto|]. split.
  { replace (negb (len sub =? 0)%nat) with (0 <? len sub)%nat
      by (destruct (len sub); reflexivity).
    simpl. auto. }
  split; [simpl; auto 6|]. split; [reflexivity|]. split.
  - unfold sub, mask, len. rewrite outliers_map, loc_rows.
    apply filter_length_le.
  - intros row. unfold sub, mask. rewrite outliers_map, loc_rows, filter_In.
    split.
    + intros [Hin Hf]. apply In_nth_error in Hin as [r Hr]. exists r.
      split; [exact Hr|]. now rewrite nth_error_map, Hr; simpl; rewrite Hf.
    + intros [r [Hr Hm]]. split; [eapply nth_error_In; eassumption|].
      rewrite nth_error_map, Hr in Hm. simpl in Hm. congruence.
Qed.

End DetectorCounts.

Section DetectorShares.

Lemma filter_incl_length {A : Type} (f g : A -> bool) (l : list A) :
  (forall x, f x = true -> g x = true) ->
  (length (filter f l) <= length (filter g l))%nat.
Proof.
  intros H. induction l as [|x l IH]; simpl; [lia|].
  destruct (f x) eqn:E.
  - rewrite (H x E). simpl. lia.
  - destruct (g x); simpl; lia.
Qed.

Lemma list_sum_map_add {A : Type} (f g : A -> nat) (l : list A) :
  list_sum (map (fun x => (f x + g x)%nat) l)
  = (list_sum (map f l) + list_sum (map g l))%nat.
Proof.
  induction l as [|x l IH]; simpl; [reflexivity|]. rewrite IH. lia.
Qed.

Lemma list_sum_elem {A : Type} (f : A -> nat) (l : list A) (x : A) :
  In x l -> (f x <= list_sum (map f l))%nat.
Proof.
  induction l as [|y l IH]; intros H; [contradiction|].
  destruct H as [-> | H]; simpl; [lia|].
  specialize (IH H). lia.
Qed.

(** In a boolean frame, the rows with a [True] are at most as many as
    the [True]s counted column by column. *)
Lemma any_le_sum (w : nat) (m : list (list bool)) :
  (forall r, In r m -> length r = w) ->
  (length (filter (existsb (fun b => b)) m)
   <= list_sum (sum_axis0 w m))%nat.
Proof.
  unfold sum_axis0. induction m as [|r m IH]; intros Hw.
  - simpl. lia.
  - rewrite (map_ext _ (fun j => ((if nth j r false then 1 else 0)
                                  + length (filter (fun r => nth j r false)
                                                   m))%nat))
      by (intros j; simpl; destruct (nth j r false); reflexivity).
    rewrite list_sum_map_add.
    specialize (IH (fun r' Hr' => Hw r' (or_intror Hr'))).
    simpl filter. destruct (existsb (fun b => b) r) eqn:E; [|lia].
    apply existsb_exists in E as [b0 [Hb0 Hb]]. subst b0.
    apply (In_nth _ _ false) in Hb0 as [j [Hj Hnth]].
    rewrite (Hw r (or_introl eq_refl)) in Hj.
    pose proof (list_sum_elem
                  (fun j => if nth j r false then 1%nat else 0%nat)
                  (seq 0 w) j) as Hs.
    assert (Hin : In j (seq 0 w)) by (apply in_seq; lia).
    specialize (Hs Hin). cbv beta in Hs. rewrite Hnth in Hs.
    simpl length. lia.
Qed.

(** X6: the per-column counts and the number of flagged rows bound each
    other: no column flags more rows than are flagged in all, and the
    flagged rows are at most the column counts added up. *)
Theorem flagged_counts (df : DataFrame) (numeric_cols : list string) :
  let z := z_scores df numeric_cols in
  let total := length (filter (fun b => b) (outliers z)) in
  (forall k, In k (sum_axis0 (length numeric_cols) (exceeds z)) ->
     (k <= total)%nat) /\
  (total <= list_sum (sum_axis0 (length numeric_cols) (exceeds z)))%nat.
Proof.
  intros z total.
  assert (Ht : total = length (filter (existsb (fun b => b)) (exceeds z)))
    by (unfold total, outliers, any_axis1; rewrite filter_map_length;
        reflexivity).
  split.
  - intros k Hk. unfold sum_axis0 in Hk.
    apply in_map_iff in Hk as [j [<- _]]. rewrite Ht.
    apply filter_incl_length. intros r Hr.
    apply existsb_exists. exists true. split; [|reflexivity].
    rewrite <- Hr. apply nth_In.
    destruct (Nat.lt_ge_cases j (length r)) as [H | H]; [exact H|].
    rewrite nth_overflow in Hr by exact H. discriminate.
  - rewrite Ht. apply any_le_sum. intros r Hr.
    unfold z, exceeds, z_scores in Hr. rewrite map_map in Hr.
    apply in_map_iff in Hr as [row [<- _]]. now rewrite !length_map.
Qed.

End DetectorShares.

(* ================================================================= *)
(** * Further properties of the timestamp stage *)

Section WorkingTable.
Variable to_datetime : list cell -> list (option Z).

Lemma filter_all {A : Type} (f : A -> bool) (l : list A) :
  (forall x, In x l -> f x = true) -> filter f l = l.
Proof.
  induction l as [|x l IH]; intros H; simpl; [reflexivity|].
  rewrite (H x) by now left. f_equal. apply IH.
  intros y Hy. apply H. now right.
Qed.

(** With both bounds at their defaults every row that has an instant is
    in range. *)
Lemma default_range_all (df : DataFrame) :
  (forall row, In row (rows df) -> exists t, instant df row = Some t) ->
  filter_by_date df None None = df.
Proof.
  intros Hall. unfold filter_by_date, date_mask.
  assert (Hrows : rows (loc df (map (in_range df (start_date df None)
                                              (end_date df None)) (rows df)))
                  = rows df).
  { rewrite loc_rows. apply filter_all. intros row Hrow.
    destruct (Hall row Hrow) as [t Ht].
    assert (Hin : In (Some t) (map (instant df) (rows df)))
      by (apply instant_In; eauto).
    destruct (opt_fold_min_le _ _ Hin) as [lo [Elo Hlo]].
    destruct (opt_fold_max_ge _ _ Hin) as [hi [Ehi Hhi]].
    unfold in_range, start_date, end_date, date_input, ts_min, ts_max.
    rewrite Ht, Elo, Ehi. simpl.
    apply andb_true_iff. split; apply Z.leb_le; now apply date_of_mono. }
  destruct df as [cols rws]. unfold loc in *. simpl in *. now rewrite Hrows.
Qed.

(** X7: when neither date picker is touched, the date filter removes
    nothing: the analysis runs on every row whose timestamp parsed. *)
Theorem default_dates_keep_all (w : Widgets) (df : DataFrame) :
  well_formed df = true -> has_column timestamp df = true ->
  start_pick w = None -> end_pick w = None ->
  snd (prepare to_datetime w df) = Some (normalize to_datetime df) /\
  Permutation (rows (normalize to_datetime df)) (parsed_rows to_datetime df).
Proof.
  intros Hwf Hcol Hs He. split; [|now apply normalize_perm].
  unfold prepare. rewrite Hcol, Hs, He. simpl. f_equal.
  apply default_range_all. intros row Hrow. now apply normalize_instants.
Qed.

Lemma key_le_trans {A : Type} (key : A -> option Z) (x y z : A) :
  key_le key x y -> key_le key y z -> key_le key x z.
Proof.
  unfold key_le, instant_leb.
  destruct (key x), (key y), (key z); try discriminate; auto.
  rewrite !Z.leb_le. lia.
Qed.

Lemma filter_sorted {A : Type} (key : A -> option Z) (f : A -> bool)
  (l : list A) :
  Sorted (key_le key) l -> Sorted (key_le key) (filter f l).
Proof.
  intros Hs. apply StronglySorted_Sorted.
  apply Sorted_StronglySorted in Hs;
    [|intros x y z; apply key_le_trans].
  induction Hs as [|x l Hs IH Hall]; simpl; [constructor|].
  destruct (f x); [|exact IH].
  constructor; [exact IH|].
  apply Forall_forall. intros y Hy. apply filter_In in Hy as [Hy _].
  rewrite Forall_forall in Hall. now apply Hall.
Qed.

Lemma normalize_length (df : DataFrame) :
  (len (normalize to_datetime df) <= len df)%nat.
Proof.
  unfold len. rewrite normalize_rows.
  rewrite (Permutation_length (sort_by_perm _ _)).
  unfold dropna. simpl. etransitivity; [apply filter_length_le|].
  unfold assign. destruct (index_of timestamp (names df)); simpl;
    [|reflexivity].
  rewrite length_map, length_combine. lia.
Qed.

(** X8: whatever dates are picked, the table handed to the analysis has
    its instants in ascending order ([<=] on the nanosecond counts) down
    the rows, has the loaded table's column names and no more rows than
    it. *)
Theorem working_table_sorted (w : Widgets) (df : DataFrame) :
  well_formed df = true -> has_column timestamp df = true ->
  exists pickers df',
    prepare to_datetime w df = (pickers, Some df') /\
    (exists ts,
       map (fun row => get df' row timestamp) (rows df') = map Time ts /\
       Sorted Z.le ts) /\
    (len df' <= len df)%nat /\
    names df' = names df.
Proof.
  intros Hwf Hcol. unfold prepare. rewrite Hcol. simpl.
  eexists. eexists. split; [reflexivity|].
  set (nd := normalize to_datetime df).
  assert (Hrows : rows (filter_by_date nd (start_pick w) (end_pick w))
                  = filter (in_range nd (start_date nd (start_pick w))
                                     (end_date nd (end_pick w))) (rows nd))
    by (unfold filter_by_date, date_mask; now rewrite loc_rows).
  split; [|split].
  - change (fun row => get (filter_by_date nd (start_pick w) (end_pick w))
                           row timestamp)
      with (fun row => get nd row timestamp).
    rewrite Hrows. apply sorted_stamps.
    + apply filter_sorted. apply normalize_sorted.
    + apply Forall_forall. intros row Hrow. apply filter_In in Hrow as [Hrow _].
      now apply normalize_instants.
  - unfold len at 1. rewrite Hrows.
    etransitivity; [apply filter_length_le|]. apply normalize_length.
  - apply names_normalize.
Qed.

Lemma nth_set_nth_neq {A : Type} (i j : nat) (v d : A) (l : list A) :
  i <> j -> nth i (set_nth j v l) d = nth i l d.
Proof.
  revert i j. induction l as [|x l IH]; intros [|i] [|j] H; simpl;
    try reflexivity; try contradiction.
  apply IH. congruence.
Qed.

(** X9: normalisation and date filtering leave the readings alone: every
    row of the working table is a row of the loaded table with the
    same cell under every column other than [timestamp]. *)
Theorem working_table_readings (w : Widgets) (df : DataFrame)
  (pickers : list event) (df' : DataFrame) (row' : list cell) :
  well_formed df = true -> has_column timestamp df = true ->
  prepare to_datetime w df = (pickers, Some df') ->
  In row' (rows df') ->
  exists row, In row (rows df) /\
    forall c, c <> timestamp -> get df' row' c = get df row c.
Proof.
  intros Hwf Hcol Hp Hin. unfold prepare in Hp. rewrite Hcol in Hp.
  simpl in Hp. injection Hp as _ <-.
  set (nd := normalize to_datetime df) in *.
  unfold filter_by_date, date_mask in Hin. rewrite loc_rows in Hin.
  apply filter_In in Hin as [Hin _].
  apply (Permutation_in _ (normalize_perm to_datetime df Hwf Hcol)) in Hin.
  unfold parsed_rows in Hin.
  apply in_flat_map in Hin as [[row o] [Hrow Hin]].
  apply in_combine_l in Hrow. simpl in Hin.
  destruct o as [t|]; [|contradiction]. destruct Hin as [<- | []].
  exists row. split; [exact Hrow|]. intros c Hc.
  change (get (filter_by_date nd (start_pick w) (end_pick w))
              (stamp df row (Time t)) c)
    with (get nd (stamp df row (Time t)) c).
  unfold get, nd. rewrite (names_normalize to_datetime df). unfold stamp.
  apply has_column_In, index_of_In in Hcol as [j Hj]. rewrite Hj.
  destruct (index_of c (names df)) as [i|] eqn:Hi; [|reflexivity].
  apply nth_set_nth_neq. intros ->.
  apply index_of_nth_error in Hi, Hj. congruence.
Qed.

End WorkingTable.

(* ================================================================= *)
(** * Further properties of the run *)

Section RunShapes.
Variable parse_csv : encoding -> list byte -> option DataFrame.
Variable read_ahead : encoding -> list byte -> nat.
Variable to_datetime : list cell -> list (option Z).
Variable to_csv : DataFrame -> list byte.

Local Abbreviation run := (app parse_csv read_ahead to_datetime to_csv).
Local Abbreviation load := (load parse_csv read_ahead).

(** X12: when the UTF-8 read raises on an upload that fits the read
    buffer, the run ends with the decode error, whatever CP949 or
    ISO-8859-1 would make of the bytes: the later attempts find the
    stream exhausted. *)
Theorem fallback_never_recovers (w : Widgets) (b : list byte) :
  uploaded_file w = Some (upload b) ->
  parse_csv Utf8 b = None ->
  (length b <= read_ahead Utf8 b)%nat ->
  (forall enc, parse_csv enc [] = None) ->
  load (upload b) = inl DecodeError /\
  run w = ([Halt DecodeError], None).
Proof.
  intros Hf Hp Hall Hnil.
  assert (Hl : load (upload b) = inl DecodeError)
    by now apply load_after_failed_read.
  split; [exact Hl|].
  now apply (run_load_error parse_csv read_ahead to_datetime to_csv
               w (upload b)).
Qed.

End RunShapes.

(* ================================================================= *)
(** * Further properties of the statistics *)

Section SummaryFacts.
Local Open Scope float_scope.

Lemma map_indexed_const {A B : Type} (b : B) (l : list A) :
  map (fun _ : nat * A => b) (combine (seq 0 (length l)) l)
  = map (fun _ : A => b) l.
Proof.
  generalize 0%nat. induction l as [|x l IH]; intros s; [reflexivity|].
  simpl. f_equal. apply IH.
Qed.

(** X14: on a working table without rows the analysis still returns:
    every column has count 0 with [NaN] for every other statistic, no row
    is flagged, every outlier ratio is [NaN], and every correlation is
    [NaN]. *)
Theorem empty_table_analysis (df : DataFrame) (numeric_cols : list string) :
  rows df = [] ->
  describe df numeric_cols
  = map (fun c => (c, mkStats 0 nan nan nan nan nan nan nan)) numeric_cols /\
  outliers (z_scores df numeric_cols) = [] /\
  outlier_ratio df numeric_cols (z_scores df numeric_cols)
  = map (fun c => (c, nan)) numeric_cols /\
  corr df numeric_cols
  = map (fun _ => map (fun _ => nan) numeric_cols) numeric_cols.
Proof.
  intros Hr.
  assert (Hs : forall c, series df c = [])
    by (intros c; unfold series; now rewrite Hr).
  split; [|split; [|split]].
  - unfold describe. apply map_ext. intros c. now rewrite Hs.
  - unfold outliers, any_axis1, exceeds, z_scores. now rewrite Hr.
  - unfold outlier_ratio, sum_axis0, exceeds, z_scores, len. rewrite Hr.
    rewrite map_map.
    rewrite (map_ext _ (fun _ : nat => nan)) by reflexivity.
    generalize 0%nat.
    induction numeric_cols as [|c cs IH]; intros s; [reflexivity|].
    simpl. f_equal. apply IH.
  - unfold corr.
    rewrite (map_ext _ (fun _ : nat * string =>
                          map (fun _ : string => nan) numeric_cols)).
    + apply map_indexed_const.
    + intros ia.
      rewrite (map_ext _ (fun _ : nat * string => nan)).
      * apply map_indexed_const.
      * intros jb. rewrite !Hs. now destruct (_ <=? _)%nat.
Qed.

End SummaryFacts.

(* ================================================================= *)
(** * The export, read back *)

Section ReloadFacts.
Import Reference.

Local Abbreviation reload := (load parse_csv read_ahead).



End ReloadFacts.

(* ================================================================= *)
(** * Worked examples *)

Section Worked.
Import Examples.
Local Open Scope string_scope.
Local Open Scope float_scope.

Local Abbreviation page :=
  (app Reference.parse_csv Reference.read_ahead Reference.to_datetime
       Reference.to_csv).
Local Abbreviation reload :=
  (load Reference.parse_csv Reference.read_ahead).

(** The tables are what the reference reader makes of the logs. *)
Example parse_logs :
  Reference.parse_csv Utf8 steady_log = Some steady /\
  Reference.parse_csv Utf8 faint_log = Some faint /\
  Reference.parse_csv Utf8 spike_log = Some spike /\
  Reference.parse_csv Utf8 drift_log = Some drift /\
  Reference.parse_csv Utf8 dated_log = Some dated /\
  Reference.parse_csv Utf8 shifts_log = Some shifts /\
  Reference.parse_csv Utf8 ticks_log = Some ticks /\
  Reference.parse_csv Utf8 watch_log = Some watch /\
  Reference.parse_csv Utf8 plant_log = Some plant.
Proof. vm_compute. repeat split. Qed.

Example normalize_dated :
  rows (normalize Reference.to_datetime dated)
  = [[Time 1704067200000000000; Num 23];
     [Time 1704153600000000000; Num 24];
     [Time 1704240000000000000; Num 21]].
Proof. reflexivity. Qed.

(** The statistics of the spike log, as pandas shows them. *)
Example describe_spike :
  describe spike ["temp"]
  = [("temp", mkStats 11 1 3.3166247903554 0 0 0 0 11)].
Proof. vm_compute. reflexivity. Qed.

(** The spike, and only the spike, is flagged. *)
Example spike_mask :
  outliers (z_scores spike ["temp"])
  = [false; false; false; false; false; false; false; false; false; false;
     true].
Proof. vm_compute. reflexivity. Qed.





(** C3: the CP949 log decodes and parses as CP949, with two rows and one
    column, yet the script rejects it: the UTF-8 attempt raises after
    reading the stream to its end, and the CP949 and ISO-8859-1 attempts
    find nothing left to read. *)
Theorem korean_upload_rejected :
  Reference.parse_csv Utf8 korean_log = None /\
  (exists df, Reference.parse_csv Cp949 korean_log = Some df /\
              len df = 2%nat /\ length (columns df) = 1%nat) /\
  read_csv Reference.parse_csv Reference.read_ahead (upload korean_log) Utf8
  = (None, mkFile korean_log (length korean_log)) /\
  read_csv Reference.parse_csv Reference.read_ahead
           (mkFile korean_log (length korean_log)) Cp949
  = (None, mkFile korean_log (length korean_log)) /\
  load Reference.parse_csv Reference.read_ahead (upload korean_log)
  = inl DecodeError /\
  app Reference.parse_csv Reference.read_ahead Reference.to_datetime
      Reference.to_csv (visit korean_log)
  = ([Halt DecodeError], None).
Proof.
  split; [reflexivity|]. split.
  - eexists. split; [reflexivity|]. split; reflexivity.
  - repeat split; reflexivity.
Qed.

(** One row in eleven of the spike log is flagged: the ratio is the
    float64 [1 / 11 * 100]. *)
Lemma outlier_ratio_spec_witness :
  nth_error ["temp"] 0 = Some "temp" /\
  nth_error (outlier_ratio spike ["temp"] (z_scores spike ["temp"])) 0
  = Some ("temp", 9.090909090909092) /\
  is_nan (of_nat 1 / of_nat (len spike) * 100) = false.
Proof.
  split; [reflexivity|].
  destruct (outlier_ratio_spec spike ["temp"] 0 "temp" eq_refl)
    as (E & _ & Hn & _).
  split.
  - rewrite E. vm_compute. reflexivity.
  - apply Hn; vm_compute; [apply le_n_S, Nat.le_0_l | reflexivity].
Defined.

(** The dated log is well formed; its three parsable rows come out in
    the order of their dates. *)
Lemma normalize_spec_witness :
  well_formed dated = true /\
  rows (normalize Reference.to_datetime dated)
  = [[Time 1704067200000000000; Num 23];
     [Time 1704153600000000000; Num 24];
     [Time 1704240000000000000; Num 21]] /\
  exists ts,
    map (fun row => get (normalize Reference.to_datetime dated) row timestamp)
        (rows (normalize Reference.to_datetime dated)) = map Time ts /\
    Sorted Z.le ts.
Proof.
  split; [reflexivity|]. split; [reflexivity|].
  destruct (normalize_spec Reference.to_datetime (visit dated_log) dated
                           eq_refl) as [_ [_ H]].
  exact (proj1 (proj2 (proj2 (proj2 (H eq_refl))))).
Defined.

(** Picking 2 January 2024 at both ends keeps the readings of that day,
    from midnight to 23:59:59, and drops the one a second before and the
    one at the next midnight. *)
Lemma filter_by_date_spec_witness :
  rows (normalize Reference.to_datetime shifts)
  = [[Time 1704153599000000000; Num 21];
     [Time 1704153600000000000; Num 22];
     [Time 1704198600000000000; Num 23];
     [Time 1704239999000000000; Num 24];
     [Time 1704240000000000000; Num 25]] /\
  rows (filter_by_date (normalize Reference.to_datetime shifts)
                       (Some 19724%Z) (Some 19724%Z))
  = [[Time 1704153600000000000; Num 22];
     [Time 1704198600000000000; Num 23];
     [Time 1704239999000000000; Num 24]].
Proof.
  split; [reflexivity|].
  pose proof (filter_by_date_spec (normalize Reference.to_datetime shifts)
                (Some 19724%Z) (Some 19724%Z)) as H.
  cbv zeta in H. destruct H as (_ & H & _). rewrite H. reflexivity.
Defined.

Lemma reference_empty_input (enc : encoding) :
  Reference.parse_csv enc [] = None.
Proof. destruct enc; reflexivity. Qed.








(** The tick log loads with a numeric [timestamp] column, which stays
    among the analysed columns once converted. *)
Lemma numeric_cols_fixed_witness :
  uploaded_file (visit ticks_log) = Some (upload ticks_log) /\
  fst (try_encodings Reference.parse_csv Reference.read_ahead
                      encodings_to_try (upload ticks_log))
  = Some ticks /\
  empty ticks = false /\
  select_dtypes_number ticks <> [] /\
  well_formed ticks = true /\
  exists pickers df,
    prepare Reference.to_datetime (visit ticks_log) ticks
    = (pickers, Some df) /\
    In timestamp (select_dtypes_number ticks) /\
    exists j, index_of timestamp (names ticks) = Some j /\
              nth_error (columns df) j = Some (timestamp, Datetime).
Proof.
  assert (Hn : select_dtypes_number ticks <> []) by discriminate.
  split; [reflexivity|]. split; [vm_compute; reflexivity|].
  split; [reflexivity|].
  split; [exact Hn|]. split; [reflexivity|].
  destruct (numeric_cols_fixed Reference.parse_csv Reference.read_ahead
              Reference.to_datetime Reference.to_csv
              (visit ticks_log) (upload ticks_log) ticks
              eq_refl ltac:(vm_compute; reflexivity) eq_refl Hn eq_refl)
    as (pickers & df & Hp & _ & _ & _ & _ & _ & _ & _ & H).
  exists pickers, df. split; [exact Hp|].
  apply H. left. reflexivity.
Defined.

(** The twin table, whose pressure sensor has a gap, for X1. *)
Lemma z_score_range_witness :
  z_scores twin ["temp"; "pressure"]
  = [[1; 0.7071067811865475]; [0; 0.7071067811865475]; [1; nan]] /\
  is_nan (z_score twin "pressure" [Num 3; NA]) = true.
Proof.
  split; [vm_compute; reflexivity|].
  exact (proj1 (proj2 (z_score_range twin "pressure" [Num 3; NA])) eq_refl).
Defined.

(** The dated log with both pickers untouched, for X7. *)
Lemma default_dates_keep_all_witness :
  well_formed dated = true /\ has_column timestamp dated = true /\
  start_pick (visit dated_log) = None /\ end_pick (visit dated_log) = None /\
  snd (prepare Reference.to_datetime (visit dated_log) dated)
  = Some (normalize Reference.to_datetime dated).
Proof.
  repeat (split; [reflexivity|]).
  exact (proj1 (default_dates_keep_all Reference.to_datetime
                  (visit dated_log) dated eq_refl eq_refl eq_refl eq_refl)).
Defined.

(** The dated log's working table, in the order of its dates, for X8. *)
Lemma working_table_sorted_witness :
  prepare Reference.to_datetime (visit dated_log) dated
  = ([DatePickers (Some 19723%Z) (Some 19725%Z)],
     Some (mkDF [("timestamp", Datetime); ("temp", Number)]
                [[Time 1704067200000000000; Num 23];
                 [Time 1704153600000000000; Num 24];
                 [Time 1704240000000000000; Num 21]])) /\
  exists pickers df',
    prepare Reference.to_datetime (visit dated_log) dated
    = (pickers, Some df') /\
    exists ts,
      map (fun row => get df' row timestamp) (rows df') = map Time ts /\
      Sorted Z.le ts.
Proof.
  split; [reflexivity|].
  destruct (working_table_sorted Reference.to_datetime (visit dated_log)
              dated eq_refl eq_refl) as (p & df' & Hp & Hs & _).
  exists p, df'. split; assumption.
Defined.

(** The first row of the dated log's working table, for X9. *)
Lemma working_table_readings_witness :
  well_formed dated = true /\ has_column timestamp dated = true /\
  prepare Reference.to_datetime (visit dated_log) dated
  = ([DatePickers (Some 19723%Z) (Some 19725%Z)],
     Some (normalize Reference.to_datetime dated)) /\
  In [Time 1704067200000000000; Num 23]
     (rows (normalize Reference.to_datetime dated)) /\
  exists row, In row (rows dated) /\
    forall c, c <> timestamp ->
      get (normalize Reference.to_datetime dated)
          [Time 1704067200000000000; Num 23] c
      = get dated row c.
Proof.
  assert (Hp : prepare Reference.to_datetime (visit dated_log) dated
               = ([DatePickers (Some 19723%Z) (Some 19725%Z)],
                  Some (normalize Reference.to_datetime dated)))
    by reflexivity.
  assert (Hin : In [Time 1704067200000000000; Num 23]
                   (rows (normalize Reference.to_datetime dated)))
    by (left; reflexivity).
  split; [reflexivity|]. split; [reflexivity|]. split; [exact Hp|].
  split; [exact Hin|].
  exact (working_table_readings Reference.to_datetime (visit dated_log)
           dated _ _ _ eq_refl eq_refl Hp Hin).
Defined.

(** The CP949 log, for X12. *)
Lemma fallback_never_recovers_witness :
  uploaded_file (visit korean_log) = Some (upload korean_log) /\
  Reference.parse_csv Utf8 korean_log = None /\
  (length korean_log <= Reference.read_ahead Utf8 korean_log)%nat /\
  (forall enc, Reference.parse_csv enc [] = None) /\
  load Reference.parse_csv Reference.read_ahead (upload korean_log)
  = inl DecodeError.
Proof.
  assert (Hlen : (length korean_log
                  <= Reference.read_ahead Utf8 korean_log)%nat)
    by (unfold Reference.read_ahead; lia).
  split; [reflexivity|]. split; [reflexivity|]. split; [exact Hlen|].
  split; [exact reference_empty_input|].
  exact (proj1 (fallback_never_recovers Reference.parse_csv
                  Reference.read_ahead Reference.to_datetime
                  Reference.to_csv (visit korean_log) korean_log
                  eq_refl eq_refl Hlen reference_empty_input)).
Defined.

(** A table with a header and no row, for X14. *)
Lemma empty_table_analysis_witness :
  rows (mkDF [("temp", Number)] []) = [] /\
  outliers (z_scores (mkDF [("temp", Number)] []) ["temp"])
  = [].
Proof.
  split; [reflexivity|].
  exact (proj1 (proj2 (empty_table_analysis
                         (mkDF [("temp", Number)] [])
                         ["temp"] eq_refl))).
Defined.

End Worked.
